(** * LCZ classifier (morph_streamlit.py): range specs, scoring, decision flow

    A shallow embedding of the classification core of [morph_streamlit.py]:
    [parse_bounds], [value_in_spec], [range_distance], [to_num],
    [score_class], [best_matches], the TH/TR inference helpers,
    [prefer_water_with_AL] and [classify_flow], together with the static
    tables they read ([LCZ_TABLE], [TH_TO_LCZ], [TR_BANDS]).

    Modelling conventions.
    - Python floats are modelled as exact rationals ([Q]): every number is
      finite and arithmetic does not round.  The decision flow is modelled a
      second time over binary64 floats (module [Binary64]), where the
      infinities and NaN are values and [int(x)] can raise.
    - Python [str] is modelled as [string] (a byte string holding the UTF-8
      encoding of the text); [lower] and [strip] act on ASCII letters and
      ASCII white space.
    - A Python call that may raise is modelled in the [result] monad:
      [Ret v] for a normal return, [Raise e] for an uncaught exception. *)

From Stdlib Require Import List String Ascii Bool Arith ZArith NArith QArith.
From Stdlib Require Import Qabs Lia Sorting.Sorted.
From Stdlib Require Import Permutation.
From Stdlib Require Import Lqa.
From Stdlib Require Import Floats.PrimFloat Floats.SpecFloat Floats.FloatOps.
Import ListNotations.

Local Open Scope string_scope.

(** ** Exceptions and results *)

Inductive exn : Type :=
| ValueError   (* float() on text that is not a number, int() on NaN *)
| KeyError     (* LCZ_TABLE[lcz] on a code that is not in the table *)
| IndexError   (* winner[0] on an empty list *)
| OverflowError.  (* int() on an infinity *)

Inductive result (A : Type) : Type :=
| Ret (a : A)
| Raise (e : exn).

Arguments Ret {A} a.
Arguments Raise {A} e.

Definition bind {A B : Type} (r : result A) (k : A -> result B) : result B :=
  match r with
  | Ret a => k a
  | Raise e => Raise e
  end.

Notation "x <- r ;; k" := (bind r (fun x => k))
  (at level 61, r at next level, right associativity).

(** ** Python string primitives used by the source *)

Module PyStr.

(** [str.lower] on ASCII letters; other bytes are left as they are. *)
Definition lower_char (c : ascii) : ascii :=
  let n := N_of_ascii c in
  if (65 <=? n)%N && (n <=? 90)%N then ascii_of_N (n + 32) else c.

Fixpoint lower (s : string) : string :=
  match s with
  | EmptyString => EmptyString
  | String c s' => String (lower_char c) (lower s')
  end.

(** ASCII white space as [str.strip] and [float] see it. *)
Definition is_space (c : ascii) : bool :=
  let n := N_of_ascii c in
  ((9 <=? n)%N && (n <=? 13)%N) || ((28 <=? n)%N && (n <=? 32)%N).

Fixpoint lstrip (s : string) : string :=
  match s with
  | EmptyString => EmptyString
  | String c s' => if is_space c then lstrip s' else s
  end.

Fixpoint rev_onto (s acc : string) : string :=
  match s with
  | EmptyString => acc
  | String c s' => rev_onto s' (String c acc)
  end.

Definition rev (s : string) : string := rev_onto s EmptyString.

Definition strip (s : string) : string := rev (lstrip (rev (lstrip s))).

Definition startswith (s pre : string) : bool := String.prefix pre s.

(** [sub in s]. *)
Fixpoint contains (sub s : string) : bool :=
  String.prefix sub s ||
  match s with
  | EmptyString => false
  | String _ s' => contains sub s'
  end.

(** [s[n:]]. *)
Fixpoint drop (n : nat) (s : string) : string :=
  match n, s with
  | O, _ => s
  | S _, EmptyString => EmptyString
  | S k, String _ s' => drop k s'
  end.

(** [s.replace(old, new)] for a non-empty [old]: left to right, without
    overlaps.  [skip] counts the bytes of a matched [old] still to drop. *)
Fixpoint replace_go (old new : string) (skip : nat) (s : string) : string :=
  match s with
  | EmptyString => EmptyString
  | String c s' =>
      match skip with
      | S k => replace_go old new k s'
      | O =>
          if String.prefix old s
          then new ++ replace_go old new (String.length old - 1) s'
          else String c (replace_go old new 0 s')
      end
  end.

Definition replace (old new s : string) : string := replace_go old new 0 s.

(** [s.split(sep)] for a one-character separator. *)
Fixpoint split_go (sep : ascii) (cur : string) (s : string) : list string :=
  match s with
  | EmptyString => [rev cur]
  | String c s' =>
      if Ascii.eqb c sep then rev cur :: split_go sep EmptyString s'
      else split_go sep (String c cur) s'
  end.

Definition split (sep : ascii) (s : string) : list string :=
  split_go sep EmptyString s.

(** Truth value of a string: non-empty. *)
Definition truthy (s : string) : bool :=
  match s with EmptyString => false | _ => true end.

End PyStr.

(** ** Numbers *)

Definition Qleb (x y : Q) : bool := Qle_bool x y.
Definition Qltb (x y : Q) : bool := negb (Qle_bool y x).

(** [max(a, b)] and [min(a, b)] on two numbers: the first argument wins ties. *)
Definition py_max (a b : Q) : Q := if Qltb a b then b else a.
Definition py_min (a b : Q) : Q := if Qltb b a then b else a.

(** [int(x)]: truncation toward zero. *)
Definition py_int (x : Q) : Z := Z.quot (Qnum x) (Zpos (Qden x)).

Module PyFloat.

Definition digit_of (c : ascii) : option Z :=
  let n := N_of_ascii c in
  if (48 <=? n)%N && (n <=? 57)%N then Some (Z.of_N (n - 48)) else None.

(** Reads the longest run of decimal digits at the head of [s]:
    the accumulated value, the number of digits read, and the rest. *)
Fixpoint read_digits (acc : Z) (cnt : nat) (s : string) : Z * nat * string :=
  match s with
  | EmptyString => (acc, cnt, s)
  | String c s' =>
      match digit_of c with
      | Some d => read_digits (10 * acc + d) (S cnt) s'
      | None => (acc, cnt, s)
      end
  end.

Definition read_sign (s : string) : bool * string :=
  match s with
  | String "-" s' => (true, s')
  | String "+" s' => (false, s')
  | _ => (false, s)
  end.

(** The exponent part: absent, or [e]/[E], an optional sign and at least one
    digit, up to the end of the text. *)
Definition read_exponent (s : string) : option Z :=
  match s with
  | EmptyString => Some 0%Z
  | String c s' =>
      if Ascii.eqb c "e" || Ascii.eqb c "E" then
        let '(neg, s1) := read_sign s' in
        match read_digits 0 0 s1 with
        | (_, O, _) => None
        | (e, S _, EmptyString) => Some (if neg then (- e)%Z else e)
        | (_, S _, String _ _) => None
        end
      else None
  end.

(** [float(s)] on decimal text: optional surrounding white space, an optional
    sign, digits with an optional fraction (at least one digit in all), an
    optional exponent.  [None] stands for the [ValueError] of [float].
    The value is the exact rational the text denotes.  Python also accepts
    the non-finite spellings (inf, nan) and underscores between digits;
    they are outside this model and read as invalid here. *)
Definition of_string (s : string) : option Q :=
  let '(neg, s1) := read_sign (PyStr.strip s) in
  let '(ip, n1, s2) := read_digits 0 0 s1 in
  let '(m, n2, s3) :=
    match s2 with
    | String "." s2' => read_digits ip 0 s2'
    | _ => (ip, O, s2)
    end in
  match (n1 + n2)%nat with
  | O => None
  | S _ =>
      match read_exponent s3 with
      | None => None
      | Some e =>
          let v := (inject_Z m * Qpower (10 # 1) (e - Z.of_nat n2))%Q in
          Some (Qred (if neg then (- v)%Q else v))
      end
  end.

End PyFloat.

(** [float(s)] where the source calls it outside [try]: a failure raises. *)
Definition py_float (s : string) : result Q :=
  match PyFloat.of_string s with
  | Some q => Ret q
  | None => Raise ValueError
  end.

(** ** Range specifications *)

(** The kind tags ["na"], ["ge"], ["le"], ["gt"], ["lt"], ["range"], ["eq"]. *)
Inductive kind : Type := Kna | Kge | Kle | Kgt | Klt | Krange | Keq.

Definition kind_eqb (a b : kind) : bool :=
  match a, b with
  | Kna, Kna | Kge, Kge | Kle, Kle | Kgt, Kgt | Klt, Klt
  | Krange, Krange | Keq, Keq => true
  | _, _ => false
  end.

(** The triple [(lo, hi, kind)] that [parse_bounds] returns. *)
Definition bounds : Type := option Q * option Q * kind.

Definition is_na_text (s : string) : bool :=
  let l := PyStr.lower s in
  String.eqb l "na" || String.eqb l "n/a" || String.eqb l "none".

Definition normalize_glyphs (s : string) : string :=
  PyStr.replace "≤" "<="
    (PyStr.replace "≥" ">="
       (PyStr.replace "—" "-"
          (PyStr.replace "–" "-" s))).

(** The tail of [parse_bounds]: [try: val = float(s) ... except: return None]. *)
Definition parse_eq (s : string) : result (option bounds) :=
  match PyFloat.of_string s with
  | Some v => Ret (Some (Some v, Some v, Keq))
  | None => Ret None
  end.

(** [parse_bounds(spec)].  [None] as argument is Python's [None]; the result
    [Ret None] is the function returning [None], [Raise ValueError] is the
    [float] call of an inequality branch failing outside any [try]. *)
Definition parse_bounds (spec : option string) : result (option bounds) :=
  match spec with
  | None => Ret None
  | Some spec =>
      let s := PyStr.strip spec in
      if String.eqb s "" || String.eqb s "-" || is_na_text s then
        Ret (Some (None, None, Kna))
      else
        let s := normalize_glyphs s in
        if PyStr.startswith s ">=" then
          v <- py_float (PyStr.drop 2 s) ;; Ret (Some (Some v, None, Kge))
        else if PyStr.startswith s "<=" then
          v <- py_float (PyStr.drop 2 s) ;; Ret (Some (None, Some v, Kle))
        else if PyStr.startswith s ">" then
          v <- py_float (PyStr.drop 1 s) ;; Ret (Some (Some v, None, Kgt))
        else if PyStr.startswith s "<" then
          v <- py_float (PyStr.drop 1 s) ;; Ret (Some (None, Some v, Klt))
        else
          let as_range :=
            if PyStr.contains "-" s then
              match map PyStr.strip (PyStr.split "-" s) with
              | [p0; p1] =>
                  if PyStr.truthy p0 && PyStr.truthy p1 then
                    match PyFloat.of_string p0, PyFloat.of_string p1 with
                    | Some lo, Some hi => Some (Some lo, Some hi, Krange)
                    | _, _ => None
                    end
                  else None
              | _ => None
              end
            else None in
          match as_range with
          | Some b => Ret (Some b)
          | None => parse_eq s
          end
  end.

(** ** Membership and distance *)

(** [value_in_spec(value, spec)]: [Some b] is the Boolean [b], [None] is
    Python's [None] (the spec did not parse). *)
Definition value_in_spec (value : option Q) (spec : option string)
  : result (option bool) :=
  pr <- parse_bounds spec ;;
  match pr with
  | None => Ret None
  | Some (lo, hi, kind) =>
      match value with
      | None => Ret (Some (if kind_eqb kind Kna then true else false))
      | Some value =>
          Ret (Some
            match kind with
            | Kna => true
            | Krange =>
                match lo with None => true | Some lo => Qleb lo value end
                && match hi with None => true | Some hi => Qleb value hi end
            (* a missing bound stands for -inf (lower) or +inf (upper) *)
            | Kgt => match lo with None => true | Some lo => Qltb lo value end
            | Klt => match hi with None => true | Some hi => Qltb value hi end
            | Kge => match lo with None => true | Some lo => Qleb lo value end
            | Kle => match hi with None => true | Some hi => Qleb value hi end
            | Keq =>
                Qltb (Qabs (value - match lo with None => value | Some lo => lo end))
                     (1 # 1000000000)
            end)
      end
  end.

(** [range_distance(value, spec)].  The test on an absent value comes before
    the test on the kind, as in the source. *)
Definition range_distance (value : option Q) (spec : option string) : result Q :=
  pr <- parse_bounds spec ;;
  match pr with
  | None => Ret 0
  | Some (lo, hi, kind) =>
      match value with
      | None => Ret (1 # 2)
      | Some value =>
          Ret
            match kind with
            | Kna => 0
            (* with a missing bound, max(0.0, -inf) is 0.0 *)
            | Kgt | Kge =>
                match lo with None => 0 | Some bound => py_max 0 (bound - value) end
            | Klt | Kle =>
                match hi with None => 0 | Some bound => py_max 0 (value - bound) end
            | Keq => Qabs (value - match lo with None => value | Some lo => lo end)
            | Krange =>
                let ge_lo := match lo with None => true | Some lo => Qleb lo value end in
                let le_hi := match hi with None => true | Some hi => Qleb value hi end in
                if ge_lo && le_hi then 0
                else
                  match lo, hi with
                  | Some lo_b, _ =>
                      if Qltb value lo_b then lo_b - value
                      else match hi with Some hi_b => value - hi_b | None => 0 end
                  | None, Some hi_b => value - hi_b
                  | None, None => 0
                  end
            end
      end
  end.

(** ** Parameter sets *)

(** The twelve parameter names, the keys of a parameter dictionary. *)
Inductive pname : Type :=
| SVF | SCR | FAR | BSF | ISF | PSF | BH | BHD | BHV | AL | TR | TH.

(** A parameter set as the form builds it: a number or [None] under the
    eleven numeric keys, text or [None] under ["TH"]. *)
Record ParameterSet : Type := mkParams {
  pSVF : option Q; pSCR : option Q; pFAR : option Q;
  pBSF : option Q; pISF : option Q; pPSF : option Q;
  pBH : option Q; pBHD : option Q; pBHV : option Q;
  pAL : option Q; pTR : option Q;
  pTH : option string
}.

(** [params.get(k)] for a numeric key [k]. *)
Definition get (params : ParameterSet) (k : pname) : option Q :=
  match k with
  | SVF => pSVF params | SCR => pSCR params | FAR => pFAR params
  | BSF => pBSF params | ISF => pISF params | PSF => pPSF params
  | BH => pBH params | BHD => pBHD params | BHV => pBHV params
  | AL => pAL params | TR => pTR params
  | TH => None
  end.

Definition no_params : ParameterSet :=
  mkParams None None None None None None None None None None None None.

(** [to_num(val)] on a number or [None]: [str(val)] is never blank and
    [float(str(val))] gives the number back, so the [except] branch and the
    blank test are not reached. *)
Definition to_num (val : option Q) : option Q :=
  match val with
  | None => None
  | Some v => Some v
  end.

(** ** The reference table *)

Definition spec_row (svf scr far bsf isf psf bh bhd bhv al th tr : string)
  : list (pname * string) :=
  [(SVF, svf); (SCR, scr); (FAR, far); (BSF, bsf); (ISF, isf); (PSF, psf);
   (BH, bh); (BHD, bhd); (BHV, bhv); (AL, al); (TH, th); (TR, tr)].

Definition LCZ_TABLE : list (string * list (pname * string)) :=
  [ ("1",  spec_row "0.2-0.4" ">2" ">=3" "30-45" "40-60" "<10" ">=24" "-" "-" "0.1-0.2" "-" "8");
    ("2",  spec_row "0.3-0.6" "0.75-2" "1.5-3" "30-45" "30-50" "<20" "9-24" "<9" "-" "0.1-0.2" "-" "6-7");
    ("3",  spec_row "0.2-0.6" "0.75-1.5" "1-1.5" "40-70" "20-50" "<30" "<=9" "-" "-" "0.1-0.2" "-" "6");
    ("34", spec_row "0.2-0.4" ">2" "1.2-2.5" "25-30" "40-60" "<10" "12-40" "-" ">145" "0.12-0.25" "-" "8");
    ("4",  spec_row "0.5-0.7" "0.75-1.25" "2-3" "20-30" "30-40" "30-40" ">=24" "-" "-" "0.12-0.25" "-" "7-8");
    ("35", spec_row "0.3-0.6" "0.75-2" "1.2-2" "20-30" "30-50" "<20" "12-20" "-" "<=145" "0.1-0.2" "-" "6-7");
    ("5",  spec_row "0.5-0.8" "0.3-0.75" "1.2-2" "20-30" "30-50" "20-40" "9-24" "-" "-" "0.12-0.25" "-" "5-6");
    ("6",  spec_row "0.6-0.9" "0.3-0.75" "<0.3" "20-40" "20-50" "30-60" "<=9" "-" "-" "0.12-0.25" "-" "5");
    ("8",  spec_row ">0.7" "0.1-0.3" "0.8-2.5" "30-50" "40-50" "<20" "<=9" "-" "-" "0.15-0.25" "-" "5");
    ("8B", spec_row ">0.7" "0.1-0.3" "0.8-2.5" "30-50" "40-50" "<20" "<=9" "-" "-" "0.12-0.25" "-" "5");
    ("9",  spec_row ">0.8" "0.1-0.25" "<=0.3" "<10" "<20" "60-80" "<=9" "-" "-" "0.12-0.25" "-" "5-6");
    ("A",  spec_row "<0.4" ">1" "-" "<10" "<10" ">90" "3-30" "-" "-" "0.1-0.2" "Dense trees" "8");
    ("B",  spec_row "0.5-0.8" "0.25-0.75" "-" "<10" "<10" ">90" "3-15" "-" "-" "0.15-0.25" "Sparse trees" "5-6");
    ("C",  spec_row "0.7-0.9" "0.25-1.0" "-" "<10" "<10" ">90" "<2" "-" "-" "0.15-0.3" "Dense bush" "4-5");
    ("D",  spec_row ">0.9" "<0.1" "-" "<10" "<10" ">90" "<1" "-" "-" "0.15-0.25" "Ground cover area" "3-4");
    ("G",  spec_row ">0.9" "<0.1" "-" "<10" "<10" ">90" "-" "-" "-" "0.02-0.10" "-" "1") ].

(** [LCZ_TABLE[lcz]]. *)
Fixpoint table_lookup (tbl : list (string * list (pname * string))) (lcz : string)
  : result (list (pname * string)) :=
  match tbl with
  | [] => Raise KeyError
  | (c, row) :: tbl' => if String.eqb c lcz then Ret row else table_lookup tbl' lcz
  end.

(** [list(LCZ_TABLE.keys())]. *)
Definition table_keys : list string := map fst LCZ_TABLE.

(** ** Scoring *)

(** The TH test of [score_class]:
    [th and str(spec_str).lower() in str(th).lower()]. *)
Definition th_matches (th : option string) (spec_str : string) : bool :=
  match th with
  | None => false
  | Some th =>
      PyStr.truthy th && PyStr.contains (PyStr.lower spec_str) (PyStr.lower th)
  end.

(** The loop of [score_class] over [spec.items()], from the running
    [hits] and [dist]. *)
Fixpoint score_items (params : ParameterSet) (items : list (pname * string))
  (hits : nat) (dist : Q) : result (nat * Q) :=
  match items with
  | [] => Ret (hits, dist)
  | (k, spec_str) :: items' =>
      match k with
      | TH =>
          let hits := if th_matches (pTH params) spec_str then S hits else hits in
          score_items params items' hits dist
      | _ =>
          let val := to_num (get params k) in
          inside <- value_in_spec val (Some spec_str) ;;
          let hits := match inside with Some true => S hits | _ => hits end in
          d <- range_distance val (Some spec_str) ;;
          score_items params items' hits (dist + d)
      end
  end.

Definition score_class (params : ParameterSet) (lcz : string) : result (nat * Q) :=
  spec <- table_lookup LCZ_TABLE lcz ;;
  score_items params spec 0%nat 0.

(** A scored candidate [(l, h, d)]. *)
Definition scored : Type := string * nat * Q.

Definition sc_code (x : scored) : string := fst (fst x).
Definition sc_hits (x : scored) : nat := snd (fst x).
Definition sc_dist (x : scored) : Q := snd x.

(** The order of the sort key [(-x[1], x[2], x[0])]: tuples compare
    lexicographically, text by code point. *)
Definition key_leb (x y : scored) : bool :=
  if (sc_hits y <? sc_hits x)%nat then true
  else if (sc_hits x <? sc_hits y)%nat then false
  else
    match Qcompare (sc_dist x) (sc_dist y) with
    | Lt => true
    | Gt => false
    | Eq => String.leb (sc_code x) (sc_code y)
    end.

(** [list.sort(key=...)]: Python's sort is stable; it is modelled by a stable
    insertion sort on the key order. *)
Fixpoint insert_by_key (x : scored) (l : list scored) : list scored :=
  match l with
  | [] => [x]
  | y :: l' => if key_leb x y then x :: l else y :: insert_by_key x l'
  end.

Definition sort_by_key (l : list scored) : list scored :=
  fold_right insert_by_key [] l.

(** The loop of [best_matches] building [scored]. *)
Fixpoint score_all (params : ParameterSet) (candidates : list string)
  : result (list scored) :=
  match candidates with
  | [] => Ret []
  | l :: rest =>
      hd <- score_class params l ;;
      tl <- score_all params rest ;;
      Ret ((l, fst hd, snd hd) :: tl)
  end.

(** [best_matches(params, candidates=None, topk=3)]; the defaults are passed
    explicitly as [None] and [3]. *)
Definition best_matches (params : ParameterSet) (candidates : option (list string))
  (topk : nat) : result (list scored) :=
  let candidates :=
    match candidates with
    | None => table_keys
    | Some cs => cs
    end in
  sc <- score_all params candidates ;;
  Ret (firstn topk (sort_by_key sc)).

(** ** Trace lines *)

(** A trace line is the text of an f-string: literal text, with the numbers
    it formats kept symbolic ([Flt] for a float, [Int] for an integer). *)
Inductive frag : Type :=
| Txt (s : string)
| Flt (q : Q)
| Int (z : Z).

Definition line : Type := list frag.

(** ** TH and TR inference *)

Definition TH_TO_LCZ : list (string * string) :=
  [ ("dense tree", "A"); ("dense", "A");
    ("scattered tree", "B"); ("sparse tree", "B");
    ("scattered", "B"); ("sparse", "B");
    ("bush", "C"); ("scrub", "C");
    ("low plant", "D"); ("grass", "D"); ("ground cover", "D");
    ("water", "G"); ("lake", "G"); ("river", "G") ].

Definition TR_BANDS : list (string * (Q * Q) * string) :=
  [ ("A", (7.5, 8.5), "TR ≈ 8 → (dense trees)");
    ("B", (4.5, 6.5), "TR ≈ 5–6 → (scattered/sparse trees)");
    ("C", (3.5, 5.0), "TR ≈ 4–5 → (bush/scrub)");
    ("D", (2.5, 4.0), "TR ≈ 3–4 → (low plants/grass)");
    ("G", (0.5, 1.5), "TR ≈ 1 → (water)") ].

(** The loop [for key, code in TH_TO_LCZ.items(): if key in s: return ...]. *)
Fixpoint first_keyword (items : list (string * string)) (s : string)
  : option string :=
  match items with
  | [] => None
  | (key, code) :: items' =>
      if PyStr.contains key s then Some code else first_keyword items' s
  end.

Definition infer_lcz_from_TH (th : option string) : option string * line :=
  match th with
  | None => (None, [Txt "TH not provided"])
  | Some th =>
      if negb (PyStr.truthy th) then (None, [Txt "TH not provided"])
      else
        let s := PyStr.lower th in
        match first_keyword TH_TO_LCZ s with
        | Some code => (Some code, [Txt ("TH = '" ++ th ++ "' → LCZ-" ++ code)])
        | None => (None, [Txt ("TH provided ('" ++ th ++ "') but no keyword match")])
        end
  end.

(** The loop [for code, (lo, hi), label in TR_BANDS: if lo <= TR <= hi]. *)
Fixpoint first_band (bands : list (string * (Q * Q) * string)) (tr : Q)
  : option (string * (Q * Q) * string) :=
  match bands with
  | [] => None
  | b :: bands' =>
      let '(_, (lo, hi), _) := b in
      if Qleb lo tr && Qleb tr hi then Some b else first_band bands' tr
  end.

(** The key of the nearest-band search:
    [min(abs(TR-b[1][0]), abs(TR-b[1][1]))]. *)
Definition band_gap (tr : Q) (b : string * (Q * Q) * string) : Q :=
  let '(_, (lo, hi), _) := b in py_min (Qabs (tr - lo)) (Qabs (tr - hi)).

(** [min(bands, key=...)]: the first band of least key. *)
Definition nearest_band (tr : Q) (first : string * (Q * Q) * string)
  (others : list (string * (Q * Q) * string)) : string * (Q * Q) * string :=
  fold_left
    (fun best b => if Qltb (band_gap tr b) (band_gap tr best) then b else best)
    others first.

Definition infer_lcz_from_TR (tr : option Q) : option string * line :=
  match tr with
  | None => (None, [Txt "TR not provided"])
  | Some tr =>
      match first_band TR_BANDS tr with
      | Some (code, _, label) =>
          (Some code,
           [Txt "TR = "; Int (py_int tr); Txt (" in " ++ label ++ " → LCZ-" ++ code)])
      | None =>
          (* nearest band fallback; TR_BANDS is not empty *)
          let '(code, _, label) :=
            nearest_band tr (hd ("", (0, 0), "") TR_BANDS) (tl TR_BANDS) in
          (Some code,
           [Txt "TR = "; Int (py_int tr);
            Txt (" nearest to " ++ label ++ " → LCZ-" ++ code)])
      end
  end.

Definition prefer_water_with_AL (code : option string) (al tr : option Q)
  : option string * option line :=
  match al with
  | Some al =>
      if Qleb 0.02 al && Qleb al 0.10 then
        if match tr with
           | None => true
           | Some tr => Qleb 0.5 tr && Qleb tr 1.5
           end
        then
          (Some "G",
           Some [Txt "AL="; Flt al; Txt " (0.02–0.10) and TR≈1 ⇒ LCZ-G (water)"])
        else (code, None)
      else (code, None)
  | None => (code, None)
  end.

(** ** The decision flow *)

Definition edge : Type := string * string * string.

(** The mutable locals [trace], [nodes] and [edges] of [classify_flow].
    [nodes] is a Python set: it is kept here as a duplicate-free list in
    order of insertion (the order of [list(nodes)] is not fixed by Python). *)
Record flow : Type := mkFlow {
  f_trace : list line;
  f_nodes : list string;
  f_edges : list edge
}.

Definition add_node (n : string) (ns : list string) : list string :=
  if existsb (String.eqb n) ns then ns else ns ++ [n].

(** [trace.append(l)]. *)
Definition say (l : line) (st : flow) : flow :=
  mkFlow (f_trace st ++ [l]) (f_nodes st) (f_edges st).

(** The local function [mark(frm, to, label)]. *)
Definition mark (frm to label : string) (st : flow) : flow :=
  mkFlow (f_trace st)
         (add_node to (add_node frm (f_nodes st)))
         (f_edges st ++ [(frm, to, label)]).

(** The dictionary [classify_flow] returns. *)
Record ClassificationResult : Type := mkResult {
  lcz : string;
  trace : list line;
  nodes : list string;
  edges : list edge;
  alternatives : list scored
}.

Definition finish (st : flow) (code : string) (alts : list scored)
  : ClassificationResult :=
  mkResult code (f_trace st) (f_nodes st) (f_edges st) alts.

(** A terminal with a fixed code: [return {"lcz": code, ...,
    "alternatives": best_matches(params, candidates, topk)}]. *)
Definition decided (params : ParameterSet) (st : flow) (code : string)
  (candidates : option (list string)) (topk : nat) : result ClassificationResult :=
  alts <- best_matches params candidates topk ;;
  Ret (finish st code alts).

(** [winner[0][0]]. *)
Definition top_code (winner : list scored) : result string :=
  match winner with
  | [] => Raise IndexError
  | w :: _ => Ret (sc_code w)
  end.

(** A scored terminal: [winner = best_matches(params, candidates, topk=3)],
    an optional trace line before or after it, [mark(frm,
    f"lcz{winner[0][0]}", label)], and the return of the winner's code with
    [winner] as the alternatives. *)
Definition fallback (params : ParameterSet) (st : flow) (frm label : string)
  (candidates : list string) : result ClassificationResult :=
  winner <- best_matches params (Some candidates) 3 ;;
  code <- top_code winner ;;
  Ret (finish (mark frm ("lcz" ++ code) label st) code winner).

(** [x is not None and test(x)]. *)
Definition present_and (x : option Q) (test : Q -> bool) : bool :=
  match x with
  | Some v => test v
  | None => false
  end.

(** The water override as [classify_flow] applies it to a candidate of the
    TH or TR rule: [code2, water_reason = prefer_water_with_AL(code, AL, TR)],
    then [if code2 != code: code = code2; reason = water_reason]. *)
Definition apply_water (code : string) (reason : line) (al tr : option Q)
  : string * line :=
  match prefer_water_with_AL (Some code) al tr with
  | (Some code2, Some water_reason) =>
      if negb (String.eqb code2 code) then (code2, water_reason) else (code, reason)
  | (_, _) =>
      (* the second return of prefer_water_with_AL: code2 is code *)
      (code, reason)
  end.

Definition land_candidates : list string := ["A"; "B"; "C"; "D"; "G"].

Definition classify_land (params : ParameterSet) (st : flow)
  : result ClassificationResult :=
  let st := say [Txt "Land-cover branch (BSF <10 and ISF <10)"] st in
  let st := mark "start" "land" "BSF<10 & ISF<10" st in
  let tr := to_num (get params TR) in
  let al := to_num (get params AL) in
  let th := pTH params in
  match infer_lcz_from_TH th with
  | (Some code, reason) =>
      let '(code, reason) := apply_water code reason al tr in
      let st := say reason st in
      let st := mark "land" ("lcz" ++ code) "TH rule" st in
      decided params st code (Some land_candidates) 3
  | (None, _) =>
      match infer_lcz_from_TR tr with
      | (Some code, reason) =>
          let '(code, reason) := apply_water code reason al tr in
          let st := say reason st in
          let st := mark "land" ("lcz" ++ code) "TR rule" st in
          decided params st code (Some land_candidates) 3
      | (None, _) =>
          let table_scoring :=
            fallback params
              (say [Txt "Insufficient TH/TR/AL — fell back to land-cover table scoring."] st)
              "land" "table fallback" land_candidates in
          match al with
          | Some a =>
              if Qleb 0.02 a && Qleb a 0.10 then
                let st :=
                  say [Txt "AL="; Flt a; Txt " within 0.02–0.10 (water-like) ⇒ LCZ-G"] st in
                let st := mark "land" "lczG" "AL rule" st in
                decided params st "G" (Some ["A"; "B"; "C"; "D"]) 3
              else table_scoring
          | None => table_scoring
          end
      end
  end.

Definition classify_midrise (params : ParameterSet) (st : flow)
  (bhd bhv : option Q) : result ClassificationResult :=
  let st := say [Txt "Decide among LCZ-2 / LCZ-34 / LCZ-35 using BHD and BHV"] st in
  let st := mark "bsf40" "midrise123435" "10≤BH<25" st in
  let by_bhv :=
    match bhv with
    | Some v =>
        if Qltb 145 v then
          let st := say [Txt "BHV="; Flt v; Txt " > 145 ⇒ LCZ-34"] st in
          let st := mark "midrise123435" "lcz34" "BHV>145" st in
          decided params st "34" (Some ["2"; "35"]) 2
        else
          let st := say [Txt "BHV="; Flt v; Txt " ≤ 145 ⇒ LCZ-35"] st in
          let st := mark "midrise123435" "lcz35" "BHV≤145" st in
          decided params st "35" (Some ["2"; "34"]) 2
    | None =>
        fallback params
          (say [Txt "BHD/BHV missing ⇒ fallback table scoring among {2,34,35}"] st)
          "midrise123435" "table-fallback" ["2"; "34"; "35"]
    end in
  match bhd with
  | Some d =>
      if Qltb d 9 then
        let st := say [Txt "BHD="; Flt d; Txt " < 9 ⇒ LCZ-2"] st in
        let st := mark "midrise123435" "lcz2" "BHD<9" st in
        decided params st "2" (Some ["34"; "35"]) 2
      else by_bhv
  | None => by_bhv
  end.

(** The subtree under [BSF >= 40]. *)
Definition classify_bsf40 (params : ParameterSet) (st : flow)
  (bh bhd bhv : option Q) : result ClassificationResult :=
  let st := say [Txt "BSF ≥ 40 → {1,2,3,34,35}"] st in
  let st := mark "built" "bsf40" "BSF≥40" st in
  match bh with
  | Some h =>
      if Qleb 25 h then
        let st := say [Txt "BH ≥ 25 ⇒ LCZ-1"] st in
        let st := mark "bsf40" "lcz1" "BH≥25" st in
        decided params st "1" None 3
      else if Qleb 10 h && Qltb h 25 then
        classify_midrise params st bhd bhv
      else
        let st := say [Txt "BH < 10 ⇒ LCZ-3"] st in
        let st := mark "bsf40" "lcz3" "BH<10" st in
        decided params st "3" None 3
  | None =>
      fallback params st "bsf40" "best-match (BH missing)" ["1"; "2"; "3"; "34"; "35"]
  end.

(** The node under [BH < 10] of the 20-40 subtree.  The PSF test reads
    [params.get("PSF")] and [float(params["PSF"])], which on a number is the
    number. *)
Definition classify_lowrise (params : ParameterSet) (st : flow)
  (scr far : option Q) : result ClassificationResult :=
  let st := say [Txt "BH < 10 ⇒ decide with SCR & FAR"] st in
  let st := mark "bsf20to40" "lowrise_branch" "BH<10" st in
  match scr, far with
  | Some s, Some f =>
      if Qleb 0.3 s && Qleb s 0.75 && Qleb f 0.3 then
        let st := say [Txt "0.3 ≤ SCR ≤ 0.75 and FAR ≤ 0.3 ⇒ LCZ-6"] st in
        let st := mark "lowrise_branch" "lcz6" "SCR/FAR rule" st in
        decided params st "6" None 3
      else if Qleb 0.1 s && Qltb s 0.3 && Qltb 0.3 f then
        if present_and (get params PSF) (fun psf => Qltb psf 10) then
          let st := say [Txt "PSF < 10 ⇒ LCZ-8"] st in
          let st := mark "lowrise_branch" "lcz8" "PSF<10" st in
          decided params st "8" None 3
        else
          let st := say [Txt "PSF ≥ 10 ⇒ LCZ-8B"] st in
          let st := mark "lowrise_branch" "lcz8B" "PSF≥10" st in
          decided params st "8B" None 3
      else
        fallback params st "lowrise_branch" "best-match" ["6"; "8"; "8B"]
  | _, _ =>
      fallback params st "lowrise_branch" "best-match (SCR/FAR missing)" ["6"; "8"; "8B"]
  end.

(** The subtree under the [else] of [BSF >= 40]. *)
Definition classify_bsf20to40 (params : ParameterSet) (st : flow)
  (bh scr far : option Q) : result ClassificationResult :=
  let st := say [Txt "20% ≤ BSF < 40 (or missing high) → {4,5,6,8,8B}"] st in
  let st := mark "built" "bsf20to40" "20≤BSF<40" st in
  match bh with
  | Some h =>
      if Qleb 25 h then
        let st := say [Txt "BH ≥ 25 ⇒ LCZ-4"] st in
        let st := mark "bsf20to40" "lcz4" "BH≥25" st in
        decided params st "4" None 3
      else if Qleb 10 h && Qltb h 25 then
        let st := say [Txt "10 ≤ BH < 25 ⇒ LCZ-5"] st in
        let st := mark "bsf20to40" "lcz5" "10≤BH<25" st in
        decided params st "5" None 3
      else
        classify_lowrise params st scr far
  | None =>
      fallback params st "bsf20to40" "best-match (BH missing)" ["4"; "5"; "6"; "8"; "8B"]
  end.

Definition classify_built (params : ParameterSet) (st : flow)
  (bsf svf bh bhd bhv scr far : option Q) : result ClassificationResult :=
  let st := say [Txt "Built-up (BSF ≥10 or ISF ≥10)"] st in
  let st := mark "start" "built" "BSF≥10 or ISF≥10" st in
  if present_and bsf (fun b => Qltb b 20) && present_and svf (fun v => Qltb 0.8 v) then
    let st := say [Txt "BSF < 20 and SVF > 0.8 ⇒ LCZ-9"] st in
    let st := mark "built" "lcz9" "BSF<20 & SVF>0.8" st in
    decided params st "9" None 3
  else if present_and bsf (fun b => Qleb 40 b) then
    classify_bsf40 params st bh bhd bhv
  else
    classify_bsf20to40 params st bh scr far.

(** [classify_flow(params)].  The source is one function; its subtrees are
    split here into [classify_built] (with [classify_bsf40],
    [classify_midrise], [classify_bsf20to40], [classify_lowrise]) and
    [classify_land]. *)
Definition classify_flow (params : ParameterSet) : result ClassificationResult :=
  let bsf := to_num (get params BSF) in
  let isf := to_num (get params ISF) in
  let svf := to_num (get params SVF) in
  let bh := to_num (get params BH) in
  let bhd := to_num (get params BHD) in
  let bhv := to_num (get params BHV) in
  let scr := to_num (get params SCR) in
  let far := to_num (get params FAR) in
  let st := mkFlow [] ["start"] [] in
  let built := present_and bsf (fun b => Qleb 10 b) || present_and isf (fun i => Qleb 10 i) in
  if built then classify_built params st bsf svf bh bhd bhv scr far
  else classify_land params st.

(** ** Vocabulary of the statements *)

(** The test of the start state: [built] in [classify_flow]. *)
Definition is_built (params : ParameterSet) : bool :=
  present_and (to_num (get params BSF)) (fun b => Qleb 10 b)
  || present_and (to_num (get params ISF)) (fun i => Qleb 10 i).

(** A candidate list names table codes only ([None] is the whole table). *)
Definition known_code (c : string) : bool := existsb (String.eqb c) table_keys.

Definition known_candidates (candidates : option (list string)) : bool :=
  match candidates with
  | None => true
  | Some cs => forallb known_code cs
  end.

(** A row of the table is well formed when each numeric spec parses without
    raising. *)
Definition spec_ok (ks : pname * string) : bool :=
  match fst ks with
  | TH => true
  | _ =>
      match parse_bounds (Some (snd ks)) with
      | Ret _ => true
      | Raise _ => false
      end
  end.

Definition row_ok (row : list (pname * string)) : bool := forallb spec_ok row.


(** The labels with which [classify_flow] marks a terminal chosen by
    scoring ([winner[0][0]]). *)
Definition is_scoring_fallback (e : edge) : bool :=
  let label := snd e in
  String.eqb label "table-fallback"
  || String.eqb label "best-match (BH missing)"
  || String.eqb label "best-match"
  || String.eqb label "best-match (SCR/FAR missing)"
  || String.eqb label "table fallback".

(** The candidates scored for the alternatives, and how many are kept, read
    off the last edge [(frm, to, label)] of the decision graph. *)
Definition scored_set (e : edge) : option (list string) * nat :=
  let frm := fst (fst e) in
  let label := snd e in
  if String.eqb frm "midrise123435" then
    if String.eqb label "BHD<9" then (Some ["34"; "35"], 2%nat)
    else if String.eqb label "BHV>145" then (Some ["2"; "35"], 2%nat)
    else if String.eqb label "BHV≤145" then (Some ["2"; "34"], 2%nat)
    else (Some ["2"; "34"; "35"], 3%nat)
  else if String.eqb frm "land" then
    if String.eqb label "AL rule" then (Some ["A"; "B"; "C"; "D"], 3%nat)
    else (Some land_candidates, 3%nat)
  else if String.eqb label "best-match (BH missing)" then
    if String.eqb frm "bsf40" then (Some ["1"; "2"; "3"; "34"; "35"], 3%nat)
    else (Some ["4"; "5"; "6"; "8"; "8B"], 3%nat)
  else if String.eqb frm "lowrise_branch"
          && (String.eqb label "best-match"
              || String.eqb label "best-match (SCR/FAR missing)") then
    (Some ["6"; "8"; "8B"], 3%nat)
  else (None, 3%nat).

(** What a result says about its terminal: the last edge [e] of the graph
    leads to the node of the returned code, the alternatives are the best
    matches over the set [scored_set e], and a terminal chosen by scoring
    returns the code of the first alternative. *)
Definition terminal_ok (params : ParameterSet) (r : ClassificationResult) : Prop :=
  exists pre e,
    edges r = (pre ++ [e])%list /\
    snd (fst e) = "lcz" ++ lcz r /\
    best_matches params (fst (scored_set e)) (snd (scored_set e))
      = Ret (alternatives r) /\
    (is_scoring_fallback e = true ->
     exists w rest, alternatives r = w :: rest /\ lcz r = sc_code w).

(** The condition of the water override in [prefer_water_with_AL]. *)
Definition water_cond (al tr : option Q) : bool :=
  present_and al (fun a => Qleb 0.02 a && Qleb a 0.10)
  && match tr with
     | None => true
     | Some t => Qleb 0.5 t && Qleb t 1.5
     end.

(** The reason [prefer_water_with_AL] gives for the override. *)
Definition water_reason (al : option Q) : line :=
  match al with
  | Some a => [Txt "AL="; Flt a; Txt " (0.02–0.10) and TR≈1 ⇒ LCZ-G (water)"]
  | None => []
  end.

(** The candidate of the land branch before the override: the code and the
    reason of the TH rule, or else of the TR rule, with the edge label. *)
Definition land_candidate (params : ParameterSet) : option (string * line * string) :=
  match infer_lcz_from_TH (pTH params) with
  | (Some code, reason) => Some (code, reason, "TH rule")
  | (None, _) =>
      match infer_lcz_from_TR (to_num (get params TR)) with
      | (Some code, reason) => Some (code, reason, "TR rule")
      | (None, _) => None
      end
  end.

(** The parameter set with the TH text removed. *)
Definition without_TH (params : ParameterSet) : ParameterSet :=
  mkParams (pSVF params) (pSCR params) (pFAR params) (pBSF params)
           (pISF params) (pPSF params) (pBH params) (pBHD params)
           (pBHV params) (pAL params) (pTR params) None.

(** The TH spec of a table row. *)
Fixpoint th_spec (row : list (pname * string)) : option string :=
  match row with
  | [] => None
  | (TH, s) :: _ => Some s
  | _ :: row' => th_spec row'
  end.

(** The number of TH entries of a row that the TH text matches. *)
Fixpoint th_hits (th : option string) (row : list (pname * string)) : nat :=
  match row with
  | [] => 0
  | (TH, s) :: row' => (if th_matches th s then 1 else 0) + th_hits th row'
  | _ :: row' => th_hits th row'
  end.

(** The result of a classification that returns; empty otherwise. *)
Definition returned (x : result ClassificationResult) : ClassificationResult :=
  match x with
  | Ret r => r
  | Raise _ => mkResult "" [] [] [] []
  end.

(** Parameter sets used in the worked cases below. *)
Definition params_of (bsf isf svf bh bhd al tr : option Q) (th : option string)
  : ParameterSet :=
  mkParams svf None None bsf isf None bh bhd None al tr th.

(** {BSF:5, SVF:0.85, ISF:0} *)
Definition sparse_unbuilt : ParameterSet :=
  params_of (Some 5) (Some 0) (Some 0.85) None None None None None.

(** {BSF:5, SVF:0.85, ISF:10} *)
Definition sparse_built : ParameterSet :=
  params_of (Some 5) (Some 10) (Some 0.85) None None None None None.

(** {BSF:45, BH:20, BHD:5} *)
Definition midrise_low_deviation : ParameterSet :=
  params_of (Some 45) None None (Some 20) (Some 5) None None None.

(** {BSF:45} *)
Definition dense_no_height : ParameterSet :=
  params_of (Some 45) None None None None None None None.

(** {BSF:41, ISF:50, SVF:0.3, BH:26} *)
Definition compact_highrise : ParameterSet :=
  params_of (Some 41) (Some 50) (Some 0.3) (Some 26) None None None None.

(** {TH:"dense tree", AL:0.05, TR:1} *)
Definition trees_over_water : ParameterSet :=
  params_of None None None None None (Some 0.05) (Some 1) (Some "dense tree").

(** {TH:"water", AL:0.05, TR:1} *)
Definition plain_water : ParameterSet :=
  params_of None None None None None (Some 0.05) (Some 1) (Some "water").

(** ** Presets (the sidebar helpers) *)

(** The outcome of a helper of the form: a value, an exception of the parser,
    or the [TypeError] of arithmetic on [None]. *)
Inductive outcome (A : Type) : Type :=
| Done (a : A)
| Failed (e : exn)
| TypeError.

Arguments Done {A} a.
Arguments Failed {A} e.
Arguments TypeError {A}.

Definition and_then {A B : Type} (o : outcome A) (k : A -> outcome B) : outcome B :=
  match o with
  | Done a => k a
  | Failed e => Failed e
  | TypeError => TypeError
  end.

(** [_epsilon_for(param)]: [eps.get(param, 0.1)]. *)
Definition _epsilon_for (param : pname) : Q :=
  match param with
  | SVF => 0.01 | SCR => 0.05 | FAR => 0.05 | AL => 0.01
  | BSF => 1.0 | ISF => 1.0 | PSF => 1.0
  | BH => 0.5 | BHD => 0.5 | BHV => 5.0 | TR => 0.5
  | TH => 0.1
  end.

(** [suggest_value_from_spec(param, spec)]. *)
Definition suggest_value_from_spec (param : pname) (spec : option string)
  : outcome (option Q) :=
  match parse_bounds spec with
  | Raise e => Failed e
  | Ret None => Done None
  | Ret (Some (lo, hi, kind)) =>
      let eps := _epsilon_for param in
      match kind with
      | Kna => Done None
      | Keq => Done lo
      | Krange =>
          match lo, hi with
          | None, Some h => Done (Some (py_max 0.0 (h - eps)))
          | Some l, None => Done (Some (l + eps))
          | Some l, Some h => Done (Some ((l + h) / 2.0))
          | None, None => TypeError
          end
      | Kge | Kgt =>
          Done (Some (match lo with Some l => l | None => 0.0 end + eps))
      | Kle | Klt =>
          Done (Some (py_max 0.0 (match hi with Some h => h | None => 0.0 end - eps)))
      end
  end.

(** A value of the session state or of a table of values: a number or text. *)
Inductive pyvalue : Type :=
| Num (q : Q)
| Text (s : string).

(** [st.session_state[k] = v] on the twelve parameter keys.  The session
    state is a [ParameterSet]: [None] is a key that is not set.  Only numbers
    are written under the numeric keys and only text under TH. *)
Definition set_param (st : ParameterSet) (k : pname) (v : pyvalue) : ParameterSet :=
  match k, v with
  | SVF, Num q => mkParams (Some q) (pSCR st) (pFAR st) (pBSF st) (pISF st) (pPSF st) (pBH st) (pBHD st) (pBHV st) (pAL st) (pTR st) (pTH st)
  | SCR, Num q => mkParams (pSVF st) (Some q) (pFAR st) (pBSF st) (pISF st) (pPSF st) (pBH st) (pBHD st) (pBHV st) (pAL st) (pTR st) (pTH st)
  | FAR, Num q => mkParams (pSVF st) (pSCR st) (Some q) (pBSF st) (pISF st) (pPSF st) (pBH st) (pBHD st) (pBHV st) (pAL st) (pTR st) (pTH st)
  | BSF, Num q => mkParams (pSVF st) (pSCR st) (pFAR st) (Some q) (pISF st) (pPSF st) (pBH st) (pBHD st) (pBHV st) (pAL st) (pTR st) (pTH st)
  | ISF, Num q => mkParams (pSVF st) (pSCR st) (pFAR st) (pBSF st) (Some q) (pPSF st) (pBH st) (pBHD st) (pBHV st) (pAL st) (pTR st) (pTH st)
  | PSF, Num q => mkParams (pSVF st) (pSCR st) (pFAR st) (pBSF st) (pISF st) (Some q) (pBH st) (pBHD st) (pBHV st) (pAL st) (pTR st) (pTH st)
  | BH, Num q => mkParams (pSVF st) (pSCR st) (pFAR st) (pBSF st) (pISF st) (pPSF st) (Some q) (pBHD st) (pBHV st) (pAL st) (pTR st) (pTH st)
  | BHD, Num q => mkParams (pSVF st) (pSCR st) (pFAR st) (pBSF st) (pISF st) (pPSF st) (pBH st) (Some q) (pBHV st) (pAL st) (pTR st) (pTH st)
  | BHV, Num q => mkParams (pSVF st) (pSCR st) (pFAR st) (pBSF st) (pISF st) (pPSF st) (pBH st) (pBHD st) (Some q) (pAL st) (pTR st) (pTH st)
  | AL, Num q => mkParams (pSVF st) (pSCR st) (pFAR st) (pBSF st) (pISF st) (pPSF st) (pBH st) (pBHD st) (pBHV st) (Some q) (pTR st) (pTH st)
  | TR, Num q => mkParams (pSVF st) (pSCR st) (pFAR st) (pBSF st) (pISF st) (pPSF st) (pBH st) (pBHD st) (pBHV st) (pAL st) (Some q) (pTH st)
  | TH, Text s => mkParams (pSVF st) (pSCR st) (pFAR st) (pBSF st) (pISF st) (pPSF st) (pBH st) (pBHD st) (pBHV st) (pAL st) (pTR st) (Some s)
  | _, _ => st
  end.

(** [k in st.session_state]. *)
Definition has_key (st : ParameterSet) (k : pname) : bool :=
  match k with
  | TH => match pTH st with Some _ => true | None => false end
  | _ => match get st k with Some _ => true | None => false end
  end.

Definition pname_eqb (a b : pname) : bool :=
  match a, b with
  | SVF, SVF | SCR, SCR | FAR, FAR | BSF, BSF | ISF, ISF | PSF, PSF
  | BH, BH | BHD, BHD | BHV, BHV | AL, AL | TR, TR | TH, TH => true
  | _, _ => false
  end.

(** [spec.get(p)] on a row of the table: [None] when [p not in spec]. *)
Fixpoint row_get (row : list (pname * string)) (p : pname) : option string :=
  match row with
  | [] => None
  | (k, s) :: row' => if pname_eqb k p then Some s else row_get row' p
  end.

(** [LCZ_TABLE.get(lcz_code, {})]. *)
Definition table_get (lcz_code : string) : list (pname * string) :=
  match table_lookup LCZ_TABLE lcz_code with
  | Ret row => row
  | Raise _ => []
  end.

Definition DEFAULTS : list (pname * pyvalue) :=
  [ (SVF, Num 0.85); (SCR, Num 0.20); (FAR, Num 0.90);
    (BSF, Num 25.0); (ISF, Num 45.0); (PSF, Num 15.0);
    (BH, Num 8.0); (BHD, Num 8.0); (BHV, Num 120.0);
    (AL, Num 0.20); (TR, Num 5.0); (TH, Text "") ].

(** [init_defaults()]: each default is written where the key is not set. *)
Definition init_defaults (st : ParameterSet) : ParameterSet :=
  fold_left
    (fun st kv => if has_key st (fst kv) then st else set_param st (fst kv) (snd kv))
    DEFAULTS st.

Definition PRESET_OVERRIDES : list (string * list (pname * pyvalue)) :=
  [ ("1",  [(BSF, Num 41.0); (BH, Num 26.0)]);
    ("2",  [(BSF, Num 40.0); (BH, Num 20.0); (BHD, Num 8.5)]);
    ("34", [(BSF, Num 45.0); (BH, Num 20.0); (BHD, Num 10.0); (BHV, Num 160.0)]);
    ("35", [(BSF, Num 45.0); (BH, Num 20.0); (BHD, Num 10.0); (BHV, Num 140.0)]);
    ("4",  [(BSF, Num 30.0); (BH, Num 26.0)]);
    ("5",  [(BSF, Num 30.0); (BH, Num 20.0)]);
    ("6",  [(BSF, Num 30.0); (BH, Num 8.5)]);
    ("8",  [(BSF, Num 25.0); (BH, Num 8.5); (PSF, Num 5.0)]);
    ("8B", [(BSF, Num 25.0); (BH, Num 8.5); (PSF, Num 15.0)]);
    ("9",  [(BSF, Num 5.0); (SVF, Num 0.85)]);
    ("A",  [(BSF, Num 9.0); (ISF, Num 9.0); (PSF, Num 95.0)]);
    ("B",  [(BSF, Num 9.0); (ISF, Num 9.0); (PSF, Num 92.0)]);
    ("C",  [(BSF, Num 9.0); (ISF, Num 9.0); (PSF, Num 92.0); (TH, Text "bush")]);
    ("D",  [(BSF, Num 9.0); (ISF, Num 9.0); (PSF, Num 92.0)]);
    ("G",  [(BSF, Num 0.0); (ISF, Num 0.0); (AL, Num 0.06); (TR, Num 1.0)]) ].

(** [PRESET_OVERRIDES.get(lcz_code)]: [None] when the code has no entry. *)
Fixpoint overrides_lookup (tbl : list (string * list (pname * pyvalue)))
  (lcz_code : string) : option (list (pname * pyvalue)) :=
  match tbl with
  | [] => None
  | (c, kvs) :: tbl' =>
      if String.eqb c lcz_code then Some kvs else overrides_lookup tbl' lcz_code
  end.

(** The loop [for k, v in ...items(): st.session_state[k] = v]. *)
Definition assign_all (kvs : list (pname * pyvalue)) (st : ParameterSet) : ParameterSet :=
  fold_left (fun st kv => set_param st (fst kv) (snd kv)) kvs st.

Definition numeric_params : list pname :=
  [SVF; SCR; FAR; BSF; ISF; PSF; BH; BHD; BHV; AL; TR].

(** The loop over the numeric parameters shared by the two preset
    functions: [if p in spec: v = suggest_value_from_spec(p, spec[p]);
    if v is not None: st.session_state[p] = float(v)]. *)
Fixpoint suggest_all (spec : list (pname * string)) (ps : list pname)
  (st : ParameterSet) : outcome ParameterSet :=
  match ps with
  | [] => Done st
  | p :: ps' =>
      match row_get spec p with
      | None => suggest_all spec ps' st
      | Some s =>
          and_then (suggest_value_from_spec p (Some s))
            (fun v =>
               match v with
               | None => suggest_all spec ps' st
               | Some q => suggest_all spec ps' (set_param st p (Num q))
               end)
      end
  end.

(** [if "TH" in spec and spec["TH"] not in ("-", "", None):
    st.session_state["TH"] = spec["TH"]]. *)
Definition copy_TH (spec : list (pname * string)) (st : ParameterSet) : ParameterSet :=
  match row_get spec TH with
  | Some s =>
      if String.eqb s "-" || String.eqb s "" then st else set_param st TH (Text s)
  | None => st
  end.

(** [apply_preset_to_session(lcz_code)], on the session state [st]. *)
Definition apply_preset_to_session (lcz_code : string) (st : ParameterSet)
  : outcome ParameterSet :=
  let spec := table_get lcz_code in
  and_then (suggest_all spec numeric_params st)
    (fun st =>
       let st := copy_TH spec st in
       Done (assign_all
               (match overrides_lookup PRESET_OVERRIDES lcz_code with
                | Some kvs => kvs
                | None => []
                end) st)).

(** [fill_preset_from_lcz(lcz_code)], on the session state [st]. *)
Definition fill_preset_from_lcz (lcz_code : string) (st : ParameterSet)
  : outcome ParameterSet :=
  let spec := table_get lcz_code in
  and_then (suggest_all spec numeric_params st)
    (fun st =>
       let st := copy_TH spec st in
       match overrides_lookup PRESET_OVERRIDES lcz_code with
       | Some kvs => Done (assign_all kvs st)
       | None => Done st
       end).

(** ** The result assembler *)

Definition LCZ_DEFINITIONS : list (string * (string * string)) :=
  [
    ("1", ("Compact high-rise",
       "Dense mix of tall buildings (tens of stories). Few or no trees. Land cover mostly paved. Materials: concrete, steel, stone, and glass."));
    ("2", ("Compact midrise",
       "Dense mix of midrise buildings (3–9 stories). Few or no trees. Land cover mostly paved. Materials: stone, brick, tile, concrete."));
    ("3", ("Compact low-rise",
       "Dense mix of low-rise buildings (1–3 stories). Few or no trees. Land cover mostly paved. Materials: stone, brick, tile, concrete."));
    ("34", ("Mixed-use high-rise",
       "Mixed-use built-up zone combining compact high-rise buildings with low or midrise features"));
    ("4", ("Open high-rise",
       "Open arrangement of tall buildings (tens of stories). Abundance of pervious land cover (low plants, scattered trees). Materials: concrete, steel, stone, glass."));
    ("35", ("Mixed-use midrise",
       "Mixed-use built-up zone combining compact midrise buildings with large low-rise elements"));
    ("5", ("Open midrise",
       "Open arrangement of midrise buildings (3–9 stories). Abundance of pervious land cover (low plants, scattered trees). Materials: concrete, steel, stone, glass."));
    ("6", ("Open low-rise",
       "Open arrangement of low-rise buildings (1–3 stories). Abundance of pervious land cover (low plants, scattered trees). Materials: wood, brick, stone, tile, concrete."));
    ("8", ("Large low-rise",
       "Open arrangement of large low-rise buildings (1–3 stories). Few or no trees. Land cover mostly paved. Materials: steel, concrete, metal, stone."));
    ("8B", ("Heavy industry",
       "Open arrangement of low-rise structures. Presence of street trees and lawns. Land cover mostly paved. Materials: metal, steel, concrete."));
    ("9", ("Sparsely built",
       "Sparse arrangement of small or medium-sized buildings in a natural setting. Abundance of pervious land cover (low plants, scattered trees)."));
    ("A", ("Dense trees",
       "Heavily wooded landscape of deciduous and/or evergreen trees. Land cover mostly pervious with low plants. Functions as natural forest, tree cultivation, or urban park."));
    ("B", ("Scattered trees",
       "Lightly wooded landscape of deciduous and/or evergreen trees. Land cover mostly pervious with low plants. Functions as natural forest, tree cultivation, or urban park."));
    ("C", ("Bush, scrub",
       "Open arrangement of bushes, shrubs, and short woody trees. Land cover mostly pervious (bare soil or sand). Functions as natural scrubland or agriculture."));
    ("D", ("Low plants",
       "Featureless landscape of grass or herbaceous plants/crops. Few or no trees. Zone functions as natural grassland, agriculture, or urban park."));
    ("G", ("Water",
       "Large open water bodies (seas, lakes) or smaller water bodies (rivers, reservoirs, lagoons).")) ].

(** [os.path.join(a, b)] on POSIX paths. *)
Definition path_join (a b : string) : string :=
  if PyStr.startswith b "/" then b
  else if String.eqb a "" || String.prefix "/" (PyStr.rev a) then a ++ b
  else a ++ "/" ++ b.

(** [LCZ_IMAGES], from the directory [CUR_DIR] of the script. *)
Definition LCZ_IMAGES (CUR_DIR : string) : list (string * string) :=
  map (fun cf => (fst cf, path_join (path_join CUR_DIR "images") (snd cf)))
    [ ("1", "lcz1.png"); ("2", "lcz2.png"); ("3", "lcz3.png"); ("34", "lcz34.png");
      ("4", "lcz4.png"); ("35", "lcz35.png"); ("5", "lcz5.png"); ("6", "lcz6.png");
      ("8", "lcz8.png"); ("8B", "lcz8B.png"); ("9", "lcz9.png");
      ("A", "lcza.png"); ("B", "lczb.png"); ("C", "lczc.png"); ("D", "lczd.png");
      ("G", "lczg.png") ].

(** [d.get(k)] on a dictionary with text keys. *)
Fixpoint dict_get {A : Type} (d : list (string * A)) (k : string) : option A :=
  match d with
  | [] => None
  | (k', v) :: d' => if String.eqb k' k then Some v else dict_get d' k
  end.

(** The dictionary [classify_lcz] returns: that of [classify_flow] with the
    keys ["type"], ["definition"] and ["image"] added. *)
Record LczResult : Type := mkLczResult {
  flow_result : ClassificationResult;
  lcz_type : string;
  definition : string;
  image : option string
}.

(** [classify_lcz(params)]. *)
Definition classify_lcz (CUR_DIR : string) (params : ParameterSet) : result LczResult :=
  res <- classify_flow params ;;
  let code := lcz res in
  Ret (mkLczResult res
         (match dict_get LCZ_DEFINITIONS code with
          | Some td => fst td
          | None => "Unknown"
          end)
         (match dict_get LCZ_DEFINITIONS code with
          | Some td => snd td
          | None => ""
          end)
         (dict_get (LCZ_IMAGES CUR_DIR) code)).

(** [_lcz_group(code)]: [code[0].isdigit()] on an ASCII digit. *)
Definition _lcz_group (code : string) : string :=
  match code with
  | String c _ =>
      if (48 <=? N_of_ascii c)%N && (N_of_ascii c <=? 57)%N
      then "Built-up" else "Land cover"
  | EmptyString => "Land cover"
  end.

(** ** The decision graph as DOT text *)

Definition label_map : list (string * string) :=
  [ ("start", "LCZ parameters"); ("built", "Built-up branch"); ("lcz9", "LCZ-9");
    ("bsf40", "BSF ≥ 40%"); ("midrise123435", "10 ≤ BH < 25 → {2,34,35}");
    ("lcz1", "LCZ-1"); ("lcz3", "LCZ-3"); ("bsf20to40", "20% ≤ BSF < 40%");
    ("lcz4", "LCZ-4"); ("lcz5", "LCZ-5"); ("lowrise_branch", "BH < 10 → (SCR/FAR)");
    ("lcz6", "LCZ-6"); ("lcz8", "LCZ-8"); ("lcz8B", "LCZ-8B");
    ("land", "Land-cover branch");
    ("lczA", "LCZ-A"); ("lczB", "LCZ-B"); ("lczC", "LCZ-C"); ("lczD", "LCZ-D");
    ("lczG", "LCZ-G") ].

(** [s.endswith(suffix)]. *)
Definition endswith (s suffix : string) : bool :=
  String.prefix (PyStr.rev suffix) (PyStr.rev s).

(** The double quote and the line feed. *)
Definition dq : string := String (ascii_of_nat 34) EmptyString.
Definition nl : string := String (ascii_of_nat 10) EmptyString.

(** [label_map.get(n, n)]. *)
Definition node_label (n : string) : string :=
  match dict_get label_map n with
  | Some lab => lab
  | None => n
  end.

(** The fill colour [to_dot] gives the node [n]. *)
Definition node_fill (n final_label : string) : string :=
  let lab := node_label n in
  let fill :=
    if endswith lab final_label
       || (PyStr.startswith n "lcz" && endswith lab final_label)
    then "#c8f7c5" else "#f2f2f2" in
  if PyStr.startswith n "lcz" then
    if endswith lab final_label then "#c8f7c5" else "#ffe0b2"
  else fill.

Definition node_line (final_label n : string) : string :=
  dq ++ n ++ dq ++ " [label=" ++ dq ++ node_label n ++ dq
     ++ ", fillcolor=" ++ dq ++ node_fill n final_label ++ dq ++ "];".

(** The style [to_dot] gives an edge. *)
Definition edge_style (e : edge) : string :=
  if PyStr.startswith (snd (fst e)) "lcz" then "bold" else "solid".

Definition edge_line (e : edge) : string :=
  dq ++ fst (fst e) ++ dq ++ " -> " ++ dq ++ snd (fst e) ++ dq
     ++ " [label=" ++ dq ++ snd e ++ dq ++ ", penwidth=2, style=" ++ edge_style e ++ "];".

(** The lines [to_dot] joins. *)
Definition dot_lines (nodes : list string) (edges : list edge) (final_label : string)
  : list string :=
  ("digraph G { rankdir=LR; node [shape=box, style=" ++ dq ++ "rounded,filled" ++ dq
     ++ ", fillcolor=" ++ dq ++ "#f2f2f2" ++ dq ++ "]; edge [fontsize=10];")
    :: (map (node_line final_label) nodes ++ map edge_line edges ++ ["}"])%list.

(** [to_dot(nodes, edges, final_label)]. *)
Definition to_dot (nodes : list string) (edges : list edge) (final_label : string)
  : string :=
  String.concat nl (dot_lines nodes edges final_label).

(** ** Vocabulary of the further properties *)

(** The code a TH text stands for, by the keywords of [TH_TO_LCZ] grouped by
    code; [s] is the text in lower case. *)
Definition th_class (s : string) : option string :=
  if PyStr.contains "dense" s then Some "A"
  else if PyStr.contains "scattered" s || PyStr.contains "sparse" s then Some "B"
  else if PyStr.contains "bush" s || PyStr.contains "scrub" s then Some "C"
  else if PyStr.contains "low plant" s || PyStr.contains "grass" s
          || PyStr.contains "ground cover" s then Some "D"
  else if PyStr.contains "water" s || PyStr.contains "lake" s
          || PyStr.contains "river" s then Some "G"
  else None.

(** The code a terrain roughness stands for, by thresholds. *)
Definition tr_class (tr : Q) : string :=
  if Qltb tr 2 then "G"
  else if Qltb tr 3.5 then "D"
  else if Qltb tr 4.5 then "C"
  else if Qltb tr 7 then "B"
  else "A".

(** The node an edge leads to. *)
Definition target (e : edge) : string := snd (fst e).

(** The end of the chain of edges [es] starting at [frm]: [None] when an
    edge does not start where the one before it ended. *)
Fixpoint path_ends (frm : string) (es : list edge) : option string :=
  match es with
  | [] => Some frm
  | e :: es' =>
      if String.eqb (fst (fst e)) frm then path_ends (target e) es' else None
  end.

(** The root-to-leaf paths of the decision tree: the edges before the last
    one, the start and the label of the last edge, and the codes the leaf can
    return. *)
Definition decision_paths : list (list edge * (string * string) * list string) :=
  let b := ("start", "built", "BSF≥10 or ISF≥10") in
  let b40 := ("built", "bsf40", "BSF≥40") in
  let mid := ("bsf40", "midrise123435", "10≤BH<25") in
  let b20 := ("built", "bsf20to40", "20≤BSF<40") in
  let low := ("bsf20to40", "lowrise_branch", "BH<10") in
  let l := ("start", "land", "BSF<10 & ISF<10") in
  [ ([b], ("built", "BSF<20 & SVF>0.8"), ["9"]);
    ([b; b40], ("bsf40", "BH≥25"), ["1"]);
    ([b; b40; mid], ("midrise123435", "BHD<9"), ["2"]);
    ([b; b40; mid], ("midrise123435", "BHV>145"), ["34"]);
    ([b; b40; mid], ("midrise123435", "BHV≤145"), ["35"]);
    ([b; b40; mid], ("midrise123435", "table-fallback"), ["2"; "34"; "35"]);
    ([b; b40], ("bsf40", "BH<10"), ["3"]);
    ([b; b40], ("bsf40", "best-match (BH missing)"), ["1"; "2"; "3"; "34"; "35"]);
    ([b; b20], ("bsf20to40", "BH≥25"), ["4"]);
    ([b; b20], ("bsf20to40", "10≤BH<25"), ["5"]);
    ([b; b20; low], ("lowrise_branch", "SCR/FAR rule"), ["6"]);
    ([b; b20; low], ("lowrise_branch", "PSF<10"), ["8"]);
    ([b; b20; low], ("lowrise_branch", "PSF≥10"), ["8B"]);
    ([b; b20; low], ("lowrise_branch", "best-match"), ["6"; "8"; "8B"]);
    ([b; b20; low], ("lowrise_branch", "best-match (SCR/FAR missing)"), ["6"; "8"; "8B"]);
    ([b; b20], ("bsf20to40", "best-match (BH missing)"), ["4"; "5"; "6"; "8"; "8B"]);
    ([l], ("land", "TH rule"), land_candidates);
    ([l], ("land", "TR rule"), land_candidates);
    ([l], ("land", "AL rule"), ["G"]);
    ([l], ("land", "table fallback"), land_candidates) ].

(** The decision graphs of the tree: a returned code with the edges of the
    path that returns it. *)
Definition decision_graphs : list (string * list edge) :=
  flat_map
    (fun path : list edge * (string * string) * list string =>
       let '(pre, (frm, label), codes) := path in
       map (fun c : string =>
              (c, (pre ++ [(frm, ("lcz" ++ c)%string, label)])%list)) codes)
    decision_paths.

(** The codes of the subtree the parameters select: "9" under the sparse
    shortcut, the compact classes under BSF >= 40, the open classes in the
    rest of the built branch, the land-cover classes otherwise. *)
Definition code_family (params : ParameterSet) : list string :=
  if is_built params then
    if present_and (to_num (get params BSF)) (fun b => Qltb b 20)
       && present_and (to_num (get params SVF)) (fun v => Qltb 0.8 v)
    then ["9"]
    else if present_and (to_num (get params BSF)) (fun b => Qleb 40 b)
    then ["1"; "2"; "3"; "34"; "35"]
    else ["4"; "5"; "6"; "8"; "8B"]
  else land_candidates.

(** Equality of edges and of decision graphs is decidable. *)
Definition edge_dec (x y : edge) : {x = y} + {x <> y}.
Proof. repeat decide equality. Defined.

Definition graph_dec (x y : string * list edge) : {x = y} + {x <> y}.
Proof.
  decide equality; [apply (list_eq_dec edge_dec)|apply string_dec].
Defined.

(** [g] is one of the decision graphs. *)
Definition is_decision_graph (g : string * list edge) : bool :=
  if in_dec graph_dec g decision_graphs then true else false.

(** ** The decision flow over binary64 floats *)

(** [classify_flow] once more, with the numbers of a parameter set as the
    binary64 floats Python computes with.  The infinities and NaN are values
    here: an order test on NaN is false, and [int(x)] raises on a non-finite
    [x].  The tests, the trace lines and the graph are those of the source,
    line by line as in the flow over the rationals above.  The scorer
    [best_matches] is a parameter of the flow, so that what is proved of the
    flow holds whatever the scores are.  A decimal literal stands for the
    nearest binary64 value, as in Python. *)
Module Binary64.

Set Warnings "-inexact-float".

(** [int(x)] on a float: truncation toward zero, [ValueError] on NaN and
    [OverflowError] on an infinity. *)
Definition py_int (x : float) : result Z :=
  match Prim2SF x with
  | S754_nan => Raise ValueError
  | S754_infinity _ => Raise OverflowError
  | S754_zero _ => Ret 0%Z
  | S754_finite s m e =>
      let a := Z.shiftl (Zpos m) e in
      Ret (if s then (- a)%Z else a)
  end.

(** [x] is neither an infinity nor NaN. *)
Definition is_finite (x : float) : bool :=
  match Prim2SF x with
  | S754_zero _ | S754_finite _ _ _ => true
  | S754_infinity _ | S754_nan => false
  end.

(** [min(a, b)] on two floats: [b] only when [b < a]. *)
Definition py_min (a b : float) : float := if PrimFloat.ltb b a then b else a.

(** A parameter set: a float or [None] under the eleven numeric keys, text
    or [None] under ["TH"]. *)
Record ParameterSet : Type := mkParams {
  pSVF : option float; pSCR : option float; pFAR : option float;
  pBSF : option float; pISF : option float; pPSF : option float;
  pBH : option float; pBHD : option float; pBHV : option float;
  pAL : option float; pTR : option float;
  pTH : option string
}.

(** [params.get(k)] for a numeric key [k]. *)
Definition get (params : ParameterSet) (k : pname) : option float :=
  match k with
  | SVF => pSVF params | SCR => pSCR params | FAR => pFAR params
  | BSF => pBSF params | ISF => pISF params | PSF => pPSF params
  | BH => pBH params | BHD => pBHD params | BHV => pBHV params
  | AL => pAL params | TR => pTR params
  | TH => None
  end.

Definition no_params : ParameterSet :=
  mkParams None None None None None None None None None None None None.

(** The parameter set [{"TR": x}]. *)
Definition only_TR (x : float) : ParameterSet :=
  mkParams None None None None None None None None None None (Some x) None.

(** [to_num(val)] on a float or [None]: [str(val)] is never blank and
    [float(str(val))] is [val] again, also for inf and nan, so the [except]
    branch and the blank test are not reached. *)
Definition to_num (val : option float) : option float :=
  match val with
  | None => None
  | Some v => Some v
  end.

(** The text of an f-string, the numbers it formats kept symbolic. *)
Inductive frag : Type :=
| Txt (s : string)
| Flt (x : float)
| Int (z : Z).

Definition line : Type := list frag.

(** An entry of [best_matches]: [(code, hits, dist)]. *)
Definition scored : Type := string * nat * float.

Definition sc_code (x : scored) : string := fst (fst x).

Definition TR_BANDS : list (string * (float * float) * string) :=
  [ ("A", (7.5, 8.5)%float, "TR ≈ 8 → (dense trees)");
    ("B", (4.5, 6.5)%float, "TR ≈ 5–6 → (scattered/sparse trees)");
    ("C", (3.5, 5.0)%float, "TR ≈ 4–5 → (bush/scrub)");
    ("D", (2.5, 4.0)%float, "TR ≈ 3–4 → (low plants/grass)");
    ("G", (0.5, 1.5)%float, "TR ≈ 1 → (water)") ].

Definition infer_lcz_from_TH (th : option string) : option string * line :=
  match th with
  | None => (None, [Txt "TH not provided"])
  | Some th =>
      if negb (PyStr.truthy th) then (None, [Txt "TH not provided"])
      else
        let s := PyStr.lower th in
        match first_keyword TH_TO_LCZ s with
        | Some code => (Some code, [Txt ("TH = '" ++ th ++ "' → LCZ-" ++ code)])
        | None => (None, [Txt ("TH provided ('" ++ th ++ "') but no keyword match")])
        end
  end.

(** The loop [for code, (lo, hi), label in TR_BANDS: if lo <= TR <= hi]. *)
Fixpoint first_band (bands : list (string * (float * float) * string)) (tr : float)
  : option (string * (float * float) * string) :=
  match bands with
  | [] => None
  | b :: bands' =>
      let '(_, (lo, hi), _) := b in
      if PrimFloat.leb lo tr && PrimFloat.leb tr hi then Some b
      else first_band bands' tr
  end.

(** The key of the nearest-band search:
    [min(abs(TR-b[1][0]), abs(TR-b[1][1]))]. *)
Definition band_gap (tr : float) (b : string * (float * float) * string) : float :=
  let '(_, (lo, hi), _) := b in
  py_min (PrimFloat.abs (PrimFloat.sub tr lo)) (PrimFloat.abs (PrimFloat.sub tr hi)).

(** [min(bands, key=...)]: a band replaces the best one so far only when
    its key is less. *)
Definition nearest_band (tr : float) (first : string * (float * float) * string)
  (others : list (string * (float * float) * string))
  : string * (float * float) * string :=
  fold_left
    (fun best b =>
       if PrimFloat.ltb (band_gap tr b) (band_gap tr best) then b else best)
    others first.

(** [infer_lcz_from_TR(TR)]: the band is chosen first, then the f-string of
    the reason evaluates [int(TR)]. *)
Definition infer_lcz_from_TR (tr : option float) : result (option string * line) :=
  match tr with
  | None => Ret (None, [Txt "TR not provided"])
  | Some tr =>
      match first_band TR_BANDS tr with
      | Some (code, _, label) =>
          n <- py_int tr ;;
          Ret (Some code,
               [Txt "TR = "; Int n; Txt (" in " ++ label ++ " → LCZ-" ++ code)])
      | None =>
          (* nearest band fallback; TR_BANDS is not empty *)
          let '(code, _, label) :=
            nearest_band tr (hd ("", (0, 0)%float, "") TR_BANDS) (tl TR_BANDS) in
          n <- py_int tr ;;
          Ret (Some code,
               [Txt "TR = "; Int n;
                Txt (" nearest to " ++ label ++ " → LCZ-" ++ code)])
      end
  end.

Definition prefer_water_with_AL (code : option string) (al tr : option float)
  : option string * option line :=
  match al with
  | Some al =>
      if PrimFloat.leb 0.02 al && PrimFloat.leb al 0.10 then
        if match tr with
           | None => true
           | Some tr => PrimFloat.leb 0.5 tr && PrimFloat.leb tr 1.5
           end
        then
          (Some "G",
           Some [Txt "AL="; Flt al; Txt " (0.02–0.10) and TR≈1 ⇒ LCZ-G (water)"])
        else (code, None)
      else (code, None)
  | None => (code, None)
  end.

(** The locals [trace], [nodes] and [edges] of [classify_flow]. *)
Record flow : Type := mkFlow {
  f_trace : list line;
  f_nodes : list string;
  f_edges : list edge
}.

Definition say (l : line) (st : flow) : flow :=
  mkFlow (f_trace st ++ [l]) (f_nodes st) (f_edges st).

Definition mark (frm to label : string) (st : flow) : flow :=
  mkFlow (f_trace st)
         (add_node to (add_node frm (f_nodes st)))
         (f_edges st ++ [(frm, to, label)]).

Record ClassificationResult : Type := mkResult {
  lcz : string;
  trace : list line;
  nodes : list string;
  edges : list edge;
  alternatives : list scored
}.

Definition finish (st : flow) (code : string) (alts : list scored)
  : ClassificationResult :=
  mkResult code (f_trace st) (f_nodes st) (f_edges st) alts.

(** [winner[0][0]]. *)
Definition top_code (winner : list scored) : result string :=
  match winner with
  | [] => Raise IndexError
  | w :: _ => Ret (sc_code w)
  end.

(** [x is not None and test(x)]. *)
Definition present_and (x : option float) (test : float -> bool) : bool :=
  match x with
  | Some v => test v
  | None => false
  end.

(** [code2, water_reason = prefer_water_with_AL(code, AL, TR)], then
    [if code2 != code: code = code2; reason = water_reason]. *)
Definition apply_water (code : string) (reason : line) (al tr : option float)
  : string * line :=
  match prefer_water_with_AL (Some code) al tr with
  | (Some code2, Some water_reason) =>
      if negb (String.eqb code2 code) then (code2, water_reason) else (code, reason)
  | (_, _) => (code, reason)
  end.

Section Flow.

(** [best_matches(params, candidates, topk)]. *)
Variable best_matches :
  ParameterSet -> option (list string) -> nat -> result (list scored).

(** [return {"lcz": code, ..., "alternatives": best_matches(params,
    candidates, topk)}]. *)
Definition decided (params : ParameterSet) (st : flow) (code : string)
  (candidates : option (list string)) (topk : nat) : result ClassificationResult :=
  alts <- best_matches params candidates topk ;;
  Ret (finish st code alts).

(** [winner = best_matches(params, candidates, topk=3)], [mark(frm,
    f"lcz{winner[0][0]}", label)] and the return of the winner's code. *)
Definition fallback (params : ParameterSet) (st : flow) (frm label : string)
  (candidates : list string) : result ClassificationResult :=
  winner <- best_matches params (Some candidates) 3 ;;
  code <- top_code winner ;;
  Ret (finish (mark frm ("lcz" ++ code) label st) code winner).

Definition classify_land (params : ParameterSet) (st : flow)
  : result ClassificationResult :=
  let st := say [Txt "Land-cover branch (BSF <10 and ISF <10)"] st in
  let st := mark "start" "land" "BSF<10 & ISF<10" st in
  let tr := to_num (get params TR) in
  let al := to_num (get params AL) in
  let th := pTH params in
  match infer_lcz_from_TH th with
  | (Some code, reason) =>
      let '(code, reason) := apply_water code reason al tr in
      let st := say reason st in
      let st := mark "land" ("lcz" ++ code) "TH rule" st in
      decided params st code (Some land_candidates) 3
  | (None, _) =>
      by_tr <- infer_lcz_from_TR tr ;;
      match by_tr with
      | (Some code, reason) =>
          let '(code, reason) := apply_water code reason al tr in
          let st := say reason st in
          let st := mark "land" ("lcz" ++ code) "TR rule" st in
          decided params st code (Some land_candidates) 3
      | (None, _) =>
          let table_scoring :=
            fallback params
              (say [Txt "Insufficient TH/TR/AL — fell back to land-cover table scoring."] st)
              "land" "table fallback" land_candidates in
          match al with
          | Some a =>
              if PrimFloat.leb 0.02 a && PrimFloat.leb a 0.10 then
                let st :=
                  say [Txt "AL="; Flt a; Txt " within 0.02–0.10 (water-like) ⇒ LCZ-G"] st in
                let st := mark "land" "lczG" "AL rule" st in
                decided params st "G" (Some ["A"; "B"; "C"; "D"]) 3
              else table_scoring
          | None => table_scoring
          end
      end
  end.

Definition classify_midrise (params : ParameterSet) (st : flow)
  (bhd bhv : option float) : result ClassificationResult :=
  let st := say [Txt "Decide among LCZ-2 / LCZ-34 / LCZ-35 using BHD and BHV"] st in
  let st := mark "bsf40" "midrise123435" "10≤BH<25" st in
  let by_bhv :=
    match bhv with
    | Some v =>
        if PrimFloat.ltb 145 v then
          let st := say [Txt "BHV="; Flt v; Txt " > 145 ⇒ LCZ-34"] st in
          let st := mark "midrise123435" "lcz34" "BHV>145" st in
          decided params st "34" (Some ["2"; "35"]) 2
        else
          let st := say [Txt "BHV="; Flt v; Txt " ≤ 145 ⇒ LCZ-35"] st in
          let st := mark "midrise123435" "lcz35" "BHV≤145" st in
          decided params st "35" (Some ["2"; "34"]) 2
    | None =>
        fallback params
          (say [Txt "BHD/BHV missing ⇒ fallback table scoring among {2,34,35}"] st)
          "midrise123435" "table-fallback" ["2"; "34"; "35"]
    end in
  match bhd with
  | Some d =>
      if PrimFloat.ltb d 9 then
        let st := say [Txt "BHD="; Flt d; Txt " < 9 ⇒ LCZ-2"] st in
        let st := mark "midrise123435" "lcz2" "BHD<9" st in
        decided params st "2" (Some ["34"; "35"]) 2
      else by_bhv
  | None => by_bhv
  end.

Definition classify_bsf40 (params : ParameterSet) (st : flow)
  (bh bhd bhv : option float) : result ClassificationResult :=
  let st := say [Txt "BSF ≥ 40 → {1,2,3,34,35}"] st in
  let st := mark "built" "bsf40" "BSF≥40" st in
  match bh with
  | Some h =>
      if PrimFloat.leb 25 h then
        let st := say [Txt "BH ≥ 25 ⇒ LCZ-1"] st in
        let st := mark "bsf40" "lcz1" "BH≥25" st in
        decided params st "1" None 3
      else if PrimFloat.leb 10 h && PrimFloat.ltb h 25 then
        classify_midrise params st bhd bhv
      else
        let st := say [Txt "BH < 10 ⇒ LCZ-3"] st in
        let st := mark "bsf40" "lcz3" "BH<10" st in
        decided params st "3" None 3
  | None =>
      fallback params st "bsf40" "best-match (BH missing)" ["1"; "2"; "3"; "34"; "35"]
  end.

(** The PSF test reads [params.get("PSF")] and [float(params["PSF"])],
    which on a float is the float. *)
Definition classify_lowrise (params : ParameterSet) (st : flow)
  (scr far : option float) : result ClassificationResult :=
  let st := say [Txt "BH < 10 ⇒ decide with SCR & FAR"] st in
  let st := mark "bsf20to40" "lowrise_branch" "BH<10" st in
  match scr, far with
  | Some s, Some f =>
      if PrimFloat.leb 0.3 s && PrimFloat.leb s 0.75 && PrimFloat.leb f 0.3 then
        let st := say [Txt "0.3 ≤ SCR ≤ 0.75 and FAR ≤ 0.3 ⇒ LCZ-6"] st in
        let st := mark "lowrise_branch" "lcz6" "SCR/FAR rule" st in
        decided params st "6" None 3
      else if PrimFloat.leb 0.1 s && PrimFloat.ltb s 0.3 && PrimFloat.ltb 0.3 f then
        if present_and (get params PSF) (fun psf => PrimFloat.ltb psf 10) then
          let st := say [Txt "PSF < 10 ⇒ LCZ-8"] st in
          let st := mark "lowrise_branch" "lcz8" "PSF<10" st in
          decided params st "8" None 3
        else
          let st := say [Txt "PSF ≥ 10 ⇒ LCZ-8B"] st in
          let st := mark "lowrise_branch" "lcz8B" "PSF≥10" st in
          decided params st "8B" None 3
      else
        fallback params st "lowrise_branch" "best-match" ["6"; "8"; "8B"]
  | _, _ =>
      fallback params st "lowrise_branch" "best-match (SCR/FAR missing)" ["6"; "8"; "8B"]
  end.

Definition classify_bsf20to40 (params : ParameterSet) (st : flow)
  (bh scr far : option float) : result ClassificationResult :=
  let st := say [Txt "20% ≤ BSF < 40 (or missing high) → {4,5,6,8,8B}"] st in
  let st := mark "built" "bsf20to40" "20≤BSF<40" st in
  match bh with
  | Some h =>
      if PrimFloat.leb 25 h then
        let st := say [Txt "BH ≥ 25 ⇒ LCZ-4"] st in
        let st := mark "bsf20to40" "lcz4" "BH≥25" st in
        decided params st "4" None 3
      else if PrimFloat.leb 10 h && PrimFloat.ltb h 25 then
        let st := say [Txt "10 ≤ BH < 25 ⇒ LCZ-5"] st in
        let st := mark "bsf20to40" "lcz5" "10≤BH<25" st in
        decided params st "5" None 3
      else
        classify_lowrise params st scr far
  | None =>
      fallback params st "bsf20to40" "best-match (BH missing)" ["4"; "5"; "6"; "8"; "8B"]
  end.

Definition classify_built (params : ParameterSet) (st : flow)
  (bsf svf bh bhd bhv scr far : option float) : result ClassificationResult :=
  let st := say [Txt "Built-up (BSF ≥10 or ISF ≥10)"] st in
  let st := mark "start" "built" "BSF≥10 or ISF≥10" st in
  if present_and bsf (fun b => PrimFloat.ltb b 20)
     && present_and svf (fun v => PrimFloat.ltb 0.8 v) then
    let st := say [Txt "BSF < 20 and SVF > 0.8 ⇒ LCZ-9"] st in
    let st := mark "built" "lcz9" "BSF<20 & SVF>0.8" st in
    decided params st "9" None 3
  else if present_and bsf (fun b => PrimFloat.leb 40 b) then
    classify_bsf40 params st bh bhd bhv
  else
    classify_bsf20to40 params st bh scr far.

(** [classify_flow(params)]. *)
Definition classify_flow (params : ParameterSet) : result ClassificationResult :=
  let bsf := to_num (get params BSF) in
  let isf := to_num (get params ISF) in
  let svf := to_num (get params SVF) in
  let bh := to_num (get params BH) in
  let bhd := to_num (get params BHD) in
  let bhv := to_num (get params BHV) in
  let scr := to_num (get params SCR) in
  let far := to_num (get params FAR) in
  let st := mkFlow [] ["start"] [] in
  let built :=
    present_and bsf (fun b => PrimFloat.leb 10 b)
    || present_and isf (fun i => PrimFloat.leb 10 i) in
  if built then classify_built params st bsf svf bh bhd bhv scr far
  else classify_land params st.

End Flow.

(** The start test of the flow, and the land branch reaching the TR rule:
    no keyword of [TH_TO_LCZ] in the TH text. *)
Definition is_built (params : ParameterSet) : bool :=
  present_and (to_num (get params BSF)) (fun b => PrimFloat.leb 10 b)
  || present_and (to_num (get params ISF)) (fun i => PrimFloat.leb 10 i).

Definition no_TH_code (params : ParameterSet) : bool :=
  match fst (infer_lcz_from_TH (pTH params)) with
  | Some _ => false
  | None => true
  end.

(** The code a terrain roughness stands for, by thresholds. *)
Definition tr_class (tr : float) : string :=
  if PrimFloat.ltb tr 2 then "G"
  else if PrimFloat.ltb tr 3.5 then "D"
  else if PrimFloat.ltb tr 4.5 then "C"
  else if PrimFloat.ltb tr 7 then "B"
  else "A".

(** [x] with the two floats before it and the two after it. *)
Definition around (x : float) : list float :=
  [next_down (next_down x); next_down x; x; next_up x; next_up (next_up x)].

(** Floats not below 0 where a step could be missed: 0, the bounds of the
    bands, the thresholds of [tr_class] and their neighbours, and values
    where a difference rounds. *)
Definition threshold_samples : list float :=
  [0; 0x1p-1074; 0x1.fffffffffffffp1023]%float ++
  flat_map around
    [0.5; 1; 1.5; 2; 2.5; 3; 3.5; 4; 4.5; 5; 6; 6.5; 7; 7.5; 8; 8.5; 9; 100;
     1e-300; 0x1p53; 1e17; 1e300]%float.

End Binary64.

(** * Properties *)

(** ** Worked values *)

Example parse_bounds_dash : parse_bounds (Some "-") = Ret (Some (None, None, Kna)).
Proof. reflexivity. Qed.

Example parse_bounds_ge3 : parse_bounds (Some ">=3") = Ret (Some (Some (3 # 1), None, Kge)).
Proof. reflexivity. Qed.

Example parse_bounds_range :
  parse_bounds (Some "30-45") = Ret (Some (Some (30 # 1), Some (45 # 1), Krange)).
Proof. reflexivity. Qed.

Example parse_bounds_decimal :
  parse_bounds (Some "0.02-0.10") = Ret (Some (Some (1 # 50), Some (1 # 10), Krange)).
Proof. reflexivity. Qed.

Example parse_bounds_lt10 : parse_bounds (Some "<10") = Ret (Some (None, Some (10 # 1), Klt)).
Proof. reflexivity. Qed.

Example parse_bounds_endash :
  parse_bounds (Some "3–4") = Ret (Some (Some (3 # 1), Some (4 # 1), Krange)).
Proof. reflexivity. Qed.

Example value_in_spec_35 : value_in_spec (Some (35 # 1)) (Some "30-45") = Ret (Some true).
Proof. reflexivity. Qed.

Example range_distance_20_ge24 : range_distance (Some (20 # 1)) (Some ">=24") = Ret (4 # 1).
Proof. reflexivity. Qed.

Example range_distance_30_ge24 : range_distance (Some (30 # 1)) (Some ">=24") = Ret 0.
Proof. reflexivity. Qed.

(** ** The parser and the evaluator *)

Section Evaluator.

Variable spec : option string.

(** An unparseable spec ([parse_bounds] returns [None]) leaves membership
    undefined and costs no distance. *)
Lemma unparsed_spec_is_neutral (value : option Q) :
  parse_bounds spec = Ret None ->
  value_in_spec value spec = Ret None /\ range_distance value spec = Ret 0.
Proof.
  intros Hp. unfold value_in_spec, range_distance. rewrite Hp. simpl. auto.
Qed.

(** When [parse_bounds] raises, so do both evaluators. *)
Lemma parse_error_propagates (value : option Q) (e : exn) :
  parse_bounds spec = Raise e ->
  value_in_spec value spec = Raise e /\ range_distance value spec = Raise e.
Proof.
  intros Hp. unfold value_in_spec, range_distance. rewrite Hp. simpl. auto.
Qed.

Variables (lo hi : option Q) (kind : kind).
Hypothesis parsed : parse_bounds spec = Ret (Some (lo, hi, kind)).

(** An absent value costs 0.5 under every parsed spec, whatever its kind. *)
Lemma range_distance_absent : range_distance None spec = Ret (1 # 2).
Proof. unfold range_distance. rewrite parsed. reflexivity. Qed.

(** A present value costs nothing under kind na. *)
Lemma range_distance_na_present (v : Q) :
  kind = Kna -> range_distance (Some v) spec = Ret 0.
Proof. intros ->. unfold range_distance. rewrite parsed. reflexivity. Qed.

Lemma value_in_spec_na (value : option Q) :
  kind = Kna -> value_in_spec value spec = Ret (Some true).
Proof.
  intros ->. unfold value_in_spec. rewrite parsed. simpl.
  destruct value; reflexivity.
Qed.

Lemma value_in_spec_absent :
  kind <> Kna -> value_in_spec None spec = Ret (Some false).
Proof.
  intros Hk. unfold value_in_spec. rewrite parsed. simpl.
  destruct kind; try reflexivity. now elim Hk.
Qed.

(** Either evaluator returns once the spec has parsed. *)
Lemma evaluators_return (value : option Q) :
  (exists b, value_in_spec value spec = Ret b) /\
  (exists d, range_distance value spec = Ret d).
Proof.
  unfold value_in_spec, range_distance. rewrite parsed. simpl.
  destruct value; split; eexists; reflexivity.
Qed.

End Evaluator.

(** C2 (code defect).  At an absent value and a spec of kind na (here the
    table's "-"), [range_distance] returns 0.5, not 0: its test on the absent
    value is placed before its test on the kind, whereas [value_in_spec]
    gives the kind precedence and accepts the same input.  The other two
    parts of the claim are [unparsed_spec_is_neutral] and
    [range_distance_absent]. *)
Theorem range_distance_absent_na_is_half :
  parse_bounds (Some "-") = Ret (Some (None, None, Kna)) /\
  range_distance None (Some "-") = Ret (1 # 2) /\
  value_in_spec None (Some "-") = Ret (Some true) /\
  range_distance (Some (7 # 1)) (Some "-") = Ret 0.
Proof. repeat split; reflexivity. Qed.

(** C3 (code defect).  On text whose number after a leading [>=], [<=], [>]
    or [<] is not valid, [parse_bounds] raises [ValueError] and returns
    nothing: the four [float] calls of the inequality branches stand outside
    any [try].  The range and the single-number branches do catch the same
    failure and return [None]. *)
Theorem parse_bounds_raises_on_bad_inequality :
  parse_bounds (Some ">=abc") = Raise ValueError /\
  parse_bounds (Some "<=abc") = Raise ValueError /\
  parse_bounds (Some ">abc") = Raise ValueError /\
  parse_bounds (Some "<") = Raise ValueError /\
  parse_bounds (Some "1-abc") = Ret None /\
  parse_bounds (Some "abc") = Ret None.
Proof. repeat split; reflexivity. Qed.

(** C9.  Under a spec of kind na, [value_in_spec] is true at every value,
    the absent one included; under a spec of any other kind it is false at
    the absent value; and under "30-45" it is true at 35, false at 50 and
    false at the absent value. *)
Theorem value_in_spec_na_absent_cases :
  (forall spec lo hi,
      parse_bounds spec = Ret (Some (lo, hi, Kna)) ->
      forall value, value_in_spec value spec = Ret (Some true)) /\
  (forall spec lo hi kind,
      parse_bounds spec = Ret (Some (lo, hi, kind)) ->
      kind <> Kna ->
      value_in_spec None spec = Ret (Some false)) /\
  value_in_spec (Some (35 # 1)) (Some "30-45") = Ret (Some true) /\
  value_in_spec (Some (50 # 1)) (Some "30-45") = Ret (Some false) /\
  value_in_spec None (Some "30-45") = Ret (Some false).
Proof.
  split; [|split; [|repeat split; reflexivity]].
  - intros spec lo hi Hp value.
    now apply (value_in_spec_na spec lo hi Kna Hp).
  - intros spec lo hi kind Hp Hk.
    now apply (value_in_spec_absent spec lo hi kind Hp).
Qed.

Lemma value_in_spec_na_absent_cases_witness :
  value_in_spec (Some (7 # 1)) (Some " N/A ") = Ret (Some true) /\
  value_in_spec None (Some "-") = Ret (Some true) /\
  value_in_spec None (Some ">=24") = Ret (Some false).
Proof.
  destruct value_in_spec_na_absent_cases as [Hna [Habs _]].
  split; [|split].
  - apply (Hna (Some " N/A ") None None). reflexivity.
  - apply (Hna (Some "-") None None). reflexivity.
  - apply (Habs (Some ">=24") (Some (24 # 1)) None Kge).
    + reflexivity.
    + discriminate.
Defined.

(** ** Scoring returns on table codes *)

Arguments parse_bounds : simpl never.
Arguments value_in_spec : simpl never.
Arguments range_distance : simpl never.
Arguments score_class : simpl never.
Arguments best_matches : simpl never.

Lemma table_rows_ok : forallb (fun cr => row_ok (snd cr)) LCZ_TABLE = true.
Proof. vm_compute. reflexivity. Qed.

Lemma spec_ok_parses (k : pname) (s : string) :
  spec_ok (k, s) = true -> k <> TH ->
  exists pr, parse_bounds (Some s) = Ret pr.
Proof.
  unfold spec_ok. cbn [fst snd]. intros Hok Hk.
  destruct (parse_bounds (Some s)) as [pr|e]; [now exists pr|].
  destruct k; try discriminate. now elim Hk.
Qed.

Lemma numeric_step_returns (value : option Q) (s : string) :
  (exists pr, parse_bounds (Some s) = Ret pr) ->
  exists inside d,
    value_in_spec value (Some s) = Ret inside /\
    range_distance value (Some s) = Ret d.
Proof.
  intros [[[[lo hi] kind]|] Hp].
  - destruct (evaluators_return (Some s) lo hi kind Hp value) as [[b Hb] [d Hd]].
    now exists b, d.
  - destruct (unparsed_spec_is_neutral (Some s) value Hp) as [Hv Hd].
    now exists None, 0.
Qed.

Lemma score_items_returns (params : ParameterSet) (items : list (pname * string)) :
  row_ok items = true ->
  forall hits dist, exists r, score_items params items hits dist = Ret r.
Proof.
  induction items as [|[k s] items IH]; intros Hok hits dist.
  - now exists (hits, dist).
  - unfold row_ok in Hok. simpl in Hok. apply andb_prop in Hok as [Hks Hrest].
    assert (Hnum : k <> TH ->
                   exists r, score_items params ((k, s) :: items) hits dist = Ret r).
    { intros Hk.
      destruct (numeric_step_returns (to_num (get params k)) s
                  (spec_ok_parses k s Hks Hk)) as (inside & d & Hv & Hd).
      destruct k; try (now elim Hk);
        cbn [score_items]; rewrite Hv; cbn [bind]; rewrite Hd; cbn [bind];
        apply IH, Hrest. }
    destruct k; try (apply Hnum; discriminate).
    cbn [score_items]. apply IH, Hrest.
Qed.

Lemma table_lookup_known (tbl : list (string * list (pname * string))) (c : string) :
  forallb (fun cr => row_ok (snd cr)) tbl = true ->
  existsb (String.eqb c) (map fst tbl) = true ->
  exists row, table_lookup tbl c = Ret row /\ row_ok row = true.
Proof.
  induction tbl as [|[c' row] tbl IH]; simpl; intros Hok Hin; [discriminate|].
  apply andb_prop in Hok as [Hrow Hrest].
  rewrite String.eqb_sym in Hin.
  destruct (String.eqb c' c).
  - now exists row.
  - apply IH; assumption.
Qed.

Lemma score_class_returns (params : ParameterSet) (c : string) :
  known_code c = true -> exists r, score_class params c = Ret r.
Proof.
  intros Hc. unfold score_class.
  destruct (table_lookup_known LCZ_TABLE c table_rows_ok Hc) as (row & Hl & Hrow).
  rewrite Hl. simpl. now apply score_items_returns.
Qed.

Lemma score_all_returns (params : ParameterSet) (cs : list string) :
  forallb known_code cs = true ->
  exists sc, score_all params cs = Ret sc /\ map sc_code sc = cs.
Proof.
  induction cs as [|c cs IH]; simpl; intros Hk.
  - now exists [].
  - apply andb_prop in Hk as [Hc Hcs].
    destruct (score_class_returns params c Hc) as [[h d] Hs].
    destruct (IH Hcs) as (sc & Hsc & Hcodes).
    rewrite Hs, Hsc. simpl. eexists. split; [reflexivity|].
    simpl. now rewrite Hcodes.
Qed.

Lemma table_keys_known : forallb known_code table_keys = true.
Proof. vm_compute. reflexivity. Qed.

(** ** The sort *)








Lemma insert_by_key_perm (x : scored) (l : list scored) :
  Permutation (x :: l) (insert_by_key x l).
Proof.
  induction l as [|y l IH]; simpl; [reflexivity|].
  destruct (key_leb x y); [reflexivity|].
  rewrite perm_swap. now constructor.
Qed.

Lemma sort_by_key_perm (l : list scored) : Permutation l (sort_by_key l).
Proof.
  induction l as [|x l IH]; simpl; [constructor|].
  rewrite <- insert_by_key_perm. now constructor.
Qed.



(** ** best_matches *)

Lemma best_matches_returns (params : ParameterSet)
  (candidates : option (list string)) (topk : nat) :
  known_candidates candidates = true ->
  exists sc,
    score_all params (match candidates with None => table_keys | Some cs => cs end)
      = Ret sc /\
    map sc_code sc = match candidates with None => table_keys | Some cs => cs end /\
    best_matches params candidates topk = Ret (firstn topk (sort_by_key sc)).
Proof.
  intros Hk. unfold best_matches.
  set (cs := match candidates with None => table_keys | Some cs => cs end).
  assert (Hcs : forallb known_code cs = true).
  { subst cs. destruct candidates; [exact Hk|apply table_keys_known]. }
  destruct (score_all_returns params cs Hcs) as (sc & Hsc & Hcodes).
  exists sc. rewrite Hsc. simpl. auto.
Qed.

Lemma best_matches_nonempty (params : ParameterSet) (cs : list string) (topk : nat) :
  forallb known_code cs = true -> cs <> [] ->
  exists w rest,
    best_matches params (Some cs) (S topk) = Ret (w :: rest) /\ In (sc_code w) cs.
Proof.
  intros Hk Hne.
  destruct (best_matches_returns params (Some cs) (S topk) Hk) as (sc & _ & Hcodes & Hb).
  rewrite Hb.
  pose proof (sort_by_key_perm sc) as Hp.
  destruct (sort_by_key sc) as [|w sorted] eqn:Hs.
  - exfalso. apply Hne. rewrite <- Hcodes.
    apply Permutation_sym, Permutation_nil in Hp. now subst sc.
  - exists w, (firstn topk sorted). split; [reflexivity|].
    rewrite <- Hcodes. apply in_map.
    apply Permutation_in with (w :: sorted); [now apply Permutation_sym|now left].
Qed.

(** ** Terminals of the decision flow *)

Lemma edges_mark (frm to label : string) (st : flow) :
  f_edges (mark frm to label st) = (f_edges st ++ [(frm, to, label)])%list.
Proof. reflexivity. Qed.

(** A terminal with a fixed code. *)
Lemma decided_terminal (params : ParameterSet) (st : flow) (frm label code : string)
  (candidates : option (list string)) (topk : nat) :
  known_candidates candidates = true ->
  scored_set (frm, "lcz" ++ code, label) = (candidates, topk) ->
  is_scoring_fallback (frm, "lcz" ++ code, label) = false ->
  exists r,
    decided params (mark frm ("lcz" ++ code) label st) code candidates topk = Ret r /\
    lcz r = code /\
    trace r = f_trace st /\
    edges r = (f_edges st ++ [(frm, ("lcz" ++ code)%string, label)])%list /\
    terminal_ok params r.
Proof.
  intros Hk Hset Hfb.
  destruct (best_matches_returns params candidates topk Hk) as (sc & _ & _ & Hb).
  unfold decided. rewrite Hb. cbn [bind].
  eexists. do 4 (split; [reflexivity|]).
  exists (f_edges st), (frm, "lcz" ++ code, label).
  split; [reflexivity|]. split; [reflexivity|]. rewrite Hset. cbn [fst snd].
  split; [exact Hb|]. rewrite Hfb. discriminate.
Qed.

(** A terminal chosen by scoring. *)
Lemma fallback_terminal (params : ParameterSet) (st : flow) (frm label : string)
  (cs : list string) :
  forallb known_code cs = true -> cs <> [] ->
  (forall to, scored_set (frm, to, label) = (Some cs, 3%nat)) ->
  exists r,
    fallback params st frm label cs = Ret r /\
    In (lcz r) cs /\
    trace r = f_trace st /\
    edges r = (f_edges st ++ [(frm, ("lcz" ++ lcz r)%string, label)])%list /\
    terminal_ok params r.
Proof.
  intros Hk Hne Hset.
  destruct (best_matches_nonempty params cs 2 Hk Hne) as (w & rest & Hb & Hin).
  unfold fallback. rewrite Hb. cbn [bind top_code].
  eexists. split; [reflexivity|]. split; [exact Hin|]. do 2 (split; [reflexivity|]).
  exists (f_edges st), (frm, "lcz" ++ sc_code w, label).
  split; [reflexivity|]. split; [reflexivity|]. rewrite Hset. cbn [fst snd].
  split; [exact Hb|]. intros _. now exists w, rest.
Qed.

Lemma decided_terminal_ok (params : ParameterSet) (st : flow)
  (frm label code : string) (candidates : option (list string)) (topk : nat) :
  known_candidates candidates = true ->
  scored_set (frm, "lcz" ++ code, label) = (candidates, topk) ->
  is_scoring_fallback (frm, "lcz" ++ code, label) = false ->
  exists r,
    decided params (mark frm ("lcz" ++ code) label st) code candidates topk = Ret r /\
    terminal_ok params r.
Proof.
  intros Hk Hset Hfb.
  destruct (decided_terminal params st frm label code candidates topk Hk Hset Hfb)
    as (r & Hr & _ & _ & _ & Hok).
  now exists r.
Qed.

Lemma fallback_terminal_ok (params : ParameterSet) (st : flow) (frm label : string)
  (cs : list string) :
  forallb known_code cs = true -> cs <> [] ->
  (forall to, scored_set (frm, to, label) = (Some cs, 3%nat)) ->
  exists r, fallback params st frm label cs = Ret r /\ terminal_ok params r.
Proof.
  intros Hk Hne Hset.
  destruct (fallback_terminal params st frm label cs Hk Hne Hset)
    as (r & Hr & _ & _ & _ & Hok).
  now exists r.
Qed.

(** Case analysis over the tests of the decision flow. *)
Ltac split_flow :=
  repeat match goal with
    | |- context [match ?x with _ => _ end] => destruct x eqn:?
    end.

Lemma classify_land_terminal (params : ParameterSet) (st : flow) :
  exists r, classify_land params st = Ret r /\ terminal_ok params r.
Proof.
  unfold classify_land. cbv zeta. split_flow;
    first [ apply decided_terminal_ok; reflexivity
          | apply fallback_terminal_ok; [reflexivity | discriminate | reflexivity] ].
Qed.

Lemma classify_built_terminal (params : ParameterSet) (st : flow)
  (bsf svf bh bhd bhv scr far : option Q) :
  exists r,
    classify_built params st bsf svf bh bhd bhv scr far = Ret r /\
    terminal_ok params r.
Proof.
  unfold classify_built, classify_bsf40, classify_midrise, classify_bsf20to40,
    classify_lowrise.
  cbv zeta. split_flow;
    first [ apply (decided_terminal_ok params _ _ _ "1"); reflexivity
          | apply (decided_terminal_ok params _ _ _ "2"); reflexivity
          | apply (decided_terminal_ok params _ _ _ "3"); reflexivity
          | apply (decided_terminal_ok params _ _ _ "34"); reflexivity
          | apply (decided_terminal_ok params _ _ _ "35"); reflexivity
          | apply (decided_terminal_ok params _ _ _ "4"); reflexivity
          | apply (decided_terminal_ok params _ _ _ "5"); reflexivity
          | apply (decided_terminal_ok params _ _ _ "6"); reflexivity
          | apply (decided_terminal_ok params _ _ _ "8"); reflexivity
          | apply (decided_terminal_ok params _ _ _ "8B"); reflexivity
          | apply (decided_terminal_ok params _ _ _ "9"); reflexivity
          | apply fallback_terminal_ok; [reflexivity | discriminate | reflexivity] ].
Qed.

(** Every classification returns, and its result describes its terminal. *)
Lemma classify_flow_terminal (params : ParameterSet) :
  exists r, classify_flow params = Ret r /\ terminal_ok params r.
Proof.
  unfold classify_flow. cbv zeta.
  destruct (_ || _).
  - apply classify_built_terminal.
  - apply classify_land_terminal.
Qed.

(** ** Claims on the decision flow and the ranking *)

(** On parameter sets whose numbers are finite (each an exact rational or
    absent, text or absent under TH), [classify_flow] returns a result,
    whichever parameters are absent.  The graph of the result ends at the
    node of the returned code, reached either by a rule that fixes the code
    or by a scoring fallback whose first alternative carries it. *)
Theorem classify_flow_total (params : ParameterSet) :
  exists r pre e,
    classify_flow params = Ret r /\
    edges r = (pre ++ [e])%list /\
    snd (fst e) = "lcz" ++ lcz r /\
    (is_scoring_fallback e = true ->
     exists w rest, alternatives r = w :: rest /\ lcz r = sc_code w).
Proof.
  destruct (classify_flow_terminal params) as (r & Hr & pre & e & He & Hto & _ & Hw).
  exists r, pre, e. repeat split; assumption.
Qed.

(** ** The flow on non-finite numbers *)

Lemma to_num_is_val (val : option float) : Binary64.to_num val = val.
Proof. now destruct val. Qed.

Lemma py_int_of_finite (x : float) :
  Binary64.is_finite x = true -> exists n, Binary64.py_int x = Ret n.
Proof.
  unfold Binary64.is_finite, Binary64.py_int.
  destruct (Prim2SF x); try discriminate; intros _; eexists; reflexivity.
Qed.

Lemma py_int_of_non_finite (x : float) :
  Binary64.is_finite x = false -> exists e, Binary64.py_int x = Raise e.
Proof.
  unfold Binary64.is_finite, Binary64.py_int.
  destruct (Prim2SF x); try discriminate; intros _; eexists; reflexivity.
Qed.

(** [infer_lcz_from_TR] returns exactly on an absent or finite TR: every
    present TR is given a band, and the reason of the band formats
    [int(TR)]. *)
Lemma infer_lcz_from_TR_returns (tr : option float) :
  match tr with
  | Some x => Binary64.is_finite x
  | None => true
  end = true ->
  exists code reason, Binary64.infer_lcz_from_TR tr = Ret (code, reason).
Proof.
  destruct tr as [x|]; intros Hx; [|do 2 eexists; reflexivity].
  destruct (py_int_of_finite x Hx) as (n & Hn).
  unfold Binary64.infer_lcz_from_TR.
  destruct (Binary64.first_band _ _) as [[[code ?] label]|].
  - rewrite Hn. do 2 eexists. reflexivity.
  - destruct (Binary64.nearest_band _ _ _) as [[code ?] label].
    rewrite Hn. do 2 eexists. reflexivity.
Qed.

Lemma infer_lcz_from_TR_raises (x : float) :
  Binary64.is_finite x = false ->
  exists e, Binary64.infer_lcz_from_TR (Some x) = Raise e.
Proof.
  intros Hx. destruct (py_int_of_non_finite x Hx) as (e & He).
  exists e. unfold Binary64.infer_lcz_from_TR.
  destruct (Binary64.first_band _ _) as [[[code ?] label]|].
  - now rewrite He.
  - destruct (Binary64.nearest_band _ _ _) as [[code ?] label]. now rewrite He.
Qed.

Section Binary64Flow.

Variable best_matches :
  Binary64.ParameterSet -> option (list string) -> nat
  -> result (list Binary64.scored).

(** In the land branch, when the TH text names no code, a TR that is an
    infinity or NaN makes [classify_flow] raise: [infer_lcz_from_TR] is
    called before any scoring. *)
Lemma classify_flow_raises (params : Binary64.ParameterSet) (x : float) :
  Binary64.is_built params = false ->
  Binary64.no_TH_code params = true ->
  Binary64.pTR params = Some x ->
  Binary64.is_finite x = false ->
  exists e, Binary64.classify_flow best_matches params = Raise e.
Proof.
  intros Hb Hth Htr Hx.
  destruct (infer_lcz_from_TR_raises x Hx) as (e & He). exists e.
  unfold Binary64.classify_flow. cbv zeta.
  unfold Binary64.is_built in Hb. rewrite Hb.
  unfold Binary64.classify_land. cbv zeta.
  unfold Binary64.no_TH_code in Hth.
  destruct (Binary64.infer_lcz_from_TH (Binary64.pTH params)) as [[c|] rsn];
    [discriminate|].
  cbn [Binary64.get]. rewrite !to_num_is_val, Htr, He. reflexivity.
Qed.

Hypothesis best_matches_returns :
  forall params candidates topk,
    exists alts, best_matches params candidates topk = Ret alts.

Hypothesis best_matches_nonempty :
  forall params candidates,
    candidates <> [] ->
    exists w rest, best_matches params (Some candidates) 3 = Ret (w :: rest).

Lemma decided_returns (params : Binary64.ParameterSet) (st : Binary64.flow)
  (code : string) (candidates : option (list string)) (topk : nat) :
  exists r, Binary64.decided best_matches params st code candidates topk = Ret r.
Proof.
  destruct (best_matches_returns params candidates topk) as (alts & Ha).
  unfold Binary64.decided. rewrite Ha. eexists. reflexivity.
Qed.

Lemma fallback_returns (params : Binary64.ParameterSet) (st : Binary64.flow)
  (frm label : string) (candidates : list string) :
  candidates <> [] ->
  exists r, Binary64.fallback best_matches params st frm label candidates = Ret r.
Proof.
  intros Hne.
  destruct (best_matches_nonempty params candidates Hne) as (w & rest & Hw).
  unfold Binary64.fallback. rewrite Hw. eexists. reflexivity.
Qed.

Ltac terminal_returns :=
  first [ apply decided_returns | apply fallback_returns; discriminate ].

(** With a scorer that returns, and returns a winner for the candidates of
    a fallback, [int(TR)] is the only place where the flow can raise: on an
    absent or finite TR it returns. *)
Lemma classify_flow_returns (params : Binary64.ParameterSet) :
  match Binary64.pTR params with
  | Some x => Binary64.is_finite x
  | None => true
  end = true ->
  exists r, Binary64.classify_flow best_matches params = Ret r.
Proof.
  intros Htr.
  destruct (infer_lcz_from_TR_returns _ Htr) as (code & reason & Hinf).
  unfold Binary64.classify_flow. cbv zeta.
  destruct (_ || _).
  - unfold Binary64.classify_built, Binary64.classify_bsf40,
      Binary64.classify_midrise, Binary64.classify_bsf20to40,
      Binary64.classify_lowrise.
    cbv zeta. split_flow; terminal_returns.
  - unfold Binary64.classify_land. cbv zeta.
    cbn [Binary64.get]. rewrite !to_num_is_val, Hinf. cbn [bind].
    split_flow; terminal_returns.
Qed.

End Binary64Flow.

(** C8.  The claim fails on the code: for the parameter set [{"TR": x}] with
    [x] an infinity or NaN, the start state goes to land, TH gives no code,
    and [infer_lcz_from_TR] raises at [int(TR)]: [OverflowError] on an
    infinity, [ValueError] on NaN, whatever the scorer. *)
Theorem classify_flow_raises_on_non_finite_TR
  (best_matches :
     Binary64.ParameterSet -> option (list string) -> nat
     -> result (list Binary64.scored)) :
  Binary64.classify_flow best_matches (Binary64.only_TR infinity)
    = Raise OverflowError /\
  Binary64.classify_flow best_matches (Binary64.only_TR neg_infinity)
    = Raise OverflowError /\
  Binary64.classify_flow best_matches (Binary64.only_TR nan)
    = Raise ValueError.
Proof. repeat split; reflexivity. Qed.

(** C1, as amended.  When the terminal is chosen by scoring (the last edge
    of the graph carries one of the scoring labels), the alternatives are not
    empty and the returned code is the code of the first of them. *)
Theorem scored_code_is_first_alternative (params : ParameterSet)
  (r : ClassificationResult) (pre : list edge) (e : edge) :
  classify_flow params = Ret r ->
  edges r = (pre ++ [e])%list ->
  is_scoring_fallback e = true ->
  exists w rest, alternatives r = w :: rest /\ lcz r = sc_code w.
Proof.
  intros Hr He Hfb.
  destruct (classify_flow_terminal params) as (r' & Hr' & pre' & e' & He' & _ & _ & Hw).
  rewrite Hr in Hr'. injection Hr' as <-.
  rewrite He in He'. apply app_inj_tail in He' as [_ <-].
  now apply Hw.
Qed.

Lemma scored_code_is_first_alternative_witness :
  let r := returned (classify_flow dense_no_height) in
  exists w rest, alternatives r = w :: rest /\ lcz r = sc_code w.
Proof.
  apply (scored_code_is_first_alternative dense_no_height
           (returned (classify_flow dense_no_height))
           (removelast (edges (returned (classify_flow dense_no_height))))
           (last (edges (returned (classify_flow dense_no_height))) ("", "", ""))).
  - vm_compute. reflexivity.
  - vm_compute. reflexivity.
  - vm_compute. reflexivity.
Defined.

(** C1, the claim as stated fails on a definitive branch: for
    {BSF:45, BH:20, BHD:5} the midrise rule BHD<9 decides code "2", and the
    alternatives, scored over "34" and "35" only, begin with "34". *)
Lemma definitive_code_differs_from_first_alternative :
  exists r w rest,
    classify_flow midrise_low_deviation = Ret r /\
    last (edges r) ("", "", "") = ("midrise123435", "lcz2", "BHD<9") /\
    is_scoring_fallback (last (edges r) ("", "", "")) = false /\
    alternatives r = w :: rest /\
    lcz r = "2" /\ sc_code w = "34" /\ lcz r <> sc_code w.
Proof.
  do 3 eexists. vm_compute. repeat split; try reflexivity. discriminate.
Qed.

(** C4, as amended.  Every classification returns, and the alternatives it
    attaches are the best matches over the set [scored_set e] read off its
    last edge [e]: the two other codes of {2,34,35} (top 2) at a midrise
    terminal decided by BHD or BHV; {A,B,C,D} at the AL rule; {A,B,C,D,G} at
    the TH and TR rules; the originating candidate set at a terminal chosen
    by scoring; and the whole table (top 3) at every other terminal, that is
    at the terminals deciding 9, 1, 3, 4, 5, 6, 8 and 8B. *)
Theorem alternatives_scored_over_terminal_set (params : ParameterSet) :
  exists r pre e,
    classify_flow params = Ret r /\
    edges r = (pre ++ [e])%list /\
    best_matches params (fst (scored_set e)) (snd (scored_set e))
      = Ret (alternatives r).
Proof.
  destruct (classify_flow_terminal params) as (r & Hr & pre & e & He & _ & Hb & _).
  now exists r, pre, e.
Qed.

(** C4, the claim as stated fails: for {BSF:41, ISF:50, SVF:0.3, BH:26} the
    terminal under BSF>=40 decides code "1" and its alternatives are scored
    over the whole table, so that the land-cover code "A" is among them;
    scored over {1,2,3,34,35} they would be "1", "3", "2". *)
Lemma alternatives_not_scoped_to_branch :
  exists r alts,
    classify_flow compact_highrise = Ret r /\
    last (edges r) ("", "", "") = ("bsf40", "lcz1", "BH≥25") /\
    map sc_code (alternatives r) = ["1"; "3"; "A"] /\
    best_matches compact_highrise (Some ["1"; "2"; "3"; "34"; "35"]) 3 = Ret alts /\
    map sc_code alts = ["1"; "3"; "2"].
Proof.
  do 2 eexists. vm_compute. repeat split; reflexivity.
Qed.



(** ** The land branch and the water override *)

Lemma apply_water_spec (code : string) (reason : line) (al tr : option Q) :
  apply_water code reason al tr =
    (if water_cond al tr then "G" else code,
     if water_cond al tr && negb (String.eqb code "G")
     then water_reason al else reason).
Proof.
  unfold apply_water, prefer_water_with_AL, water_cond, present_and, water_reason.
  destruct al as [a|]; [|reflexivity].
  destruct (Qleb 0.02 a && Qleb a 0.10); [|reflexivity].
  destruct (match tr with None => true | Some t => Qleb 0.5 t && Qleb t 1.5 end);
    [|reflexivity].
  cbn [andb]. rewrite (String.eqb_sym code "G").
  destruct (String.eqb_spec "G" code) as [<-|Hne]; reflexivity.
Qed.

Lemma first_keyword_codes (s c : string) :
  first_keyword TH_TO_LCZ s = Some c -> In c land_candidates.
Proof.
  unfold TH_TO_LCZ. cbn [first_keyword].
  repeat (destruct (PyStr.contains _ s); [intros [= <-]; simpl; tauto|]).
  discriminate.
Qed.

Lemma infer_lcz_from_TH_codes (th : option string) (c : string) (reason : line) :
  infer_lcz_from_TH th = (Some c, reason) -> In c land_candidates.
Proof.
  unfold infer_lcz_from_TH. destruct th as [t|]; [|discriminate].
  destruct (negb (PyStr.truthy t)); [discriminate|].
  destruct (first_keyword TH_TO_LCZ (PyStr.lower t)) as [c'|] eqn:Hk; [|discriminate].
  intros [= <- _]. now apply first_keyword_codes with (PyStr.lower t).
Qed.

Lemma infer_lcz_from_TR_codes (tr : option Q) (c : string) (reason : line) :
  infer_lcz_from_TR tr = (Some c, reason) -> In c land_candidates.
Proof.
  unfold infer_lcz_from_TR. destruct tr as [t|]; [|discriminate].
  unfold TR_BANDS, nearest_band. cbn [first_band fold_left hd tl].
  repeat match goal with
    | |- context [if ?b then _ else _] => destruct b
    end;
    intros [= <- _]; simpl; tauto.
Qed.

(** C7, as amended.  In the land branch, once the TH rule or (failing it)
    the TR rule has produced a candidate, the returned code is "G" when AL is
    present and within [0.02, 0.10] and TR is absent or within [0.5, 1.5],
    and the candidate otherwise; the last trace line is the override reason
    when that condition holds and the candidate is not already "G", and the
    reason of the TH/TR rule otherwise.  The last edge goes from "land" to the
    node of the returned code under the label of the rule. *)
Theorem water_override_on_land_candidate (params : ParameterSet)
  (code : string) (reason : line) (rule : string) :
  is_built params = false ->
  land_candidate params = Some (code, reason, rule) ->
  exists r,
    classify_flow params = Ret r /\
    lcz r = (if water_cond (to_num (get params AL)) (to_num (get params TR))
             then "G" else code) /\
    last (trace r) [] =
      (if water_cond (to_num (get params AL)) (to_num (get params TR))
          && negb (String.eqb code "G")
       then water_reason (to_num (get params AL)) else reason) /\
    last (edges r) ("", "", "") = ("land", "lcz" ++ lcz r, rule).
Proof.
  intros Hb Hc. unfold classify_flow. cbv zeta.
  unfold is_built in Hb. rewrite Hb.
  unfold classify_land. cbv zeta. unfold land_candidate in Hc.
  destruct (infer_lcz_from_TH (pTH params)) as [[c|] rsn].
  - injection Hc as -> -> <-. rewrite apply_water_spec.
    match goal with
    | |- context [decided params (mark ?f ("lcz" ++ ?c) ?l ?st) _ ?cs ?k] =>
        destruct (decided_terminal params st f l c cs k eq_refl eq_refl eq_refl)
          as (r & Hr & Hl & Ht & He & _)
    end.
    exists r. split; [exact Hr|]. split; [exact Hl|].
    rewrite Ht, He, Hl. cbn [say f_trace]. now rewrite !last_last.
  - destruct (infer_lcz_from_TR (to_num (get params TR))) as [[c|] rsn'];
      [|discriminate].
    injection Hc as -> -> <-. rewrite apply_water_spec.
    match goal with
    | |- context [decided params (mark ?f ("lcz" ++ ?c) ?l ?st) _ ?cs ?k] =>
        destruct (decided_terminal params st f l c cs k eq_refl eq_refl eq_refl)
          as (r & Hr & Hl & Ht & He & _)
    end.
    exists r. split; [exact Hr|]. split; [exact Hl|].
    rewrite Ht, He, Hl. cbn [say f_trace]. now rewrite !last_last.
Qed.

(** The case named in the claim: TH = "dense tree", AL = 0.05, TR = 1 with
    BSF and ISF absent gives "G", with the override reason last in the trace. *)
Lemma water_override_on_land_candidate_witness :
  exists r,
    classify_flow trees_over_water = Ret r /\
    lcz r = "G" /\
    last (trace r) [] =
      [Txt "AL="; Flt 0.05; Txt " (0.02–0.10) and TR≈1 ⇒ LCZ-G (water)"] /\
    last (edges r) ("", "", "") = ("land", "lcz" ++ lcz r, "TH rule").
Proof.
  exact (water_override_on_land_candidate trees_over_water
           "A" [Txt "TH = 'dense tree' → LCZ-A"] "TH rule" eq_refl eq_refl).
Defined.

(** C7, the claim as stated fails when the candidate is already "G": for
    TH = "water", AL = 0.05, TR = 1 the override condition holds and the code
    is "G", but the trace keeps the reason of the TH rule, since the source
    replaces the reason only when the code changes. *)
Lemma water_reason_not_recorded_for_water_candidate :
  exists r,
    classify_flow plain_water = Ret r /\
    land_candidate plain_water = Some ("G", [Txt "TH = 'water' → LCZ-G"], "TH rule") /\
    water_cond (to_num (get plain_water AL)) (to_num (get plain_water TR)) = true /\
    lcz r = "G" /\
    trace r = [[Txt "Land-cover branch (BSF <10 and ISF <10)"];
               [Txt "TH = 'water' → LCZ-G"]] /\
    last (trace r) [] <> water_reason (to_num (get plain_water AL)).
Proof.
  eexists. vm_compute. repeat split; try reflexivity. discriminate.
Qed.

(** ** The start state and the sparse shortcut *)

Lemma built_sparse_is_9 (params : ParameterSet) :
  is_built params = true ->
  present_and (to_num (get params BSF)) (fun b => Qltb b 20) = true ->
  present_and (to_num (get params SVF)) (fun v => Qltb 0.8 v) = true ->
  exists r,
    classify_flow params = Ret r /\
    lcz r = "9" /\
    edges r = [("start", "built", "BSF≥10 or ISF≥10");
               ("built", "lcz9", "BSF<20 & SVF>0.8")].
Proof.
  intros Hb Hbsf Hsvf. unfold classify_flow. cbv zeta.
  unfold is_built in Hb. rewrite Hb.
  unfold classify_built. cbv zeta. rewrite Hbsf, Hsvf. cbn [andb].
  match goal with
  | |- context [decided params (mark ?f _ ?l ?st) ?c ?cs ?k] =>
      destruct (decided_terminal params st f l c cs k eq_refl eq_refl eq_refl)
        as (r & Hr & Hl & _ & He & _)
  end.
  exists r. now repeat split.
Qed.

Lemma unbuilt_is_land (params : ParameterSet) :
  is_built params = false ->
  exists r rest,
    classify_flow params = Ret r /\
    In (lcz r) land_candidates /\
    edges r = ("start", "land", "BSF<10 & ISF<10") :: rest.
Proof.
  intros Hb. unfold classify_flow. cbv zeta.
  unfold is_built in Hb. rewrite Hb.
  unfold classify_land. cbv zeta.
  assert (Hw : forall c rsn al tr,
             In c land_candidates ->
             In (fst (apply_water c rsn al tr)) land_candidates).
  { intros c rsn al tr Hc. rewrite apply_water_spec. cbn [fst].
    destruct (water_cond al tr); [simpl; tauto|exact Hc]. }
  destruct (infer_lcz_from_TH (pTH params)) as [[c|] rsn] eqn:Hth.
  - pose proof (Hw c rsn (to_num (get params AL)) (to_num (get params TR))
                  (infer_lcz_from_TH_codes _ _ _ Hth)) as Hin.
    destruct (apply_water c rsn _ _) as [c' rsn'].
    match goal with
    | |- context [decided params (mark ?f _ ?l ?st) ?c ?cs ?k] =>
        destruct (decided_terminal params st f l c cs k eq_refl eq_refl eq_refl)
          as (r & Hr & Hl & _ & He & _)
    end.
    exists r. eexists. split; [exact Hr|]. split; [now rewrite Hl|].
    rewrite He. reflexivity.
  - destruct (infer_lcz_from_TR (to_num (get params TR))) as [[c|] rsn'] eqn:Htr.
    + pose proof (Hw c rsn' (to_num (get params AL)) (to_num (get params TR))
                    (infer_lcz_from_TR_codes _ _ _ Htr)) as Hin.
      destruct (apply_water c rsn' _ _) as [c' rsn''].
      match goal with
      | |- context [decided params (mark ?f _ ?l ?st) ?c ?cs ?k] =>
          destruct (decided_terminal params st f l c cs k eq_refl eq_refl eq_refl)
            as (r & Hr & Hl & _ & He & _)
      end.
      exists r. eexists. split; [exact Hr|]. split; [now rewrite Hl|].
      rewrite He. reflexivity.
    + assert (Hfb : exists r rest,
                 fallback params
                   (say [Txt "Insufficient TH/TR/AL — fell back to land-cover table scoring."]
                      (mark "start" "land" "BSF<10 & ISF<10"
                         (say [Txt "Land-cover branch (BSF <10 and ISF <10)"]
                            (mkFlow [] ["start"] []))))
                   "land" "table fallback" land_candidates = Ret r /\
                 In (lcz r) land_candidates /\
                 edges r = ("start", "land", "BSF<10 & ISF<10") :: rest).
      { destruct (fallback_terminal params
                    (say [Txt "Insufficient TH/TR/AL — fell back to land-cover table scoring."]
                       (mark "start" "land" "BSF<10 & ISF<10"
                          (say [Txt "Land-cover branch (BSF <10 and ISF <10)"]
                             (mkFlow [] ["start"] []))))
                    "land" "table fallback" land_candidates eq_refl)
          as (r & Hr & Hin & _ & He & _); [discriminate|reflexivity|].
        exists r. eexists. split; [exact Hr|]. split; [exact Hin|].
        rewrite He. reflexivity. }
      destruct (to_num (get params AL)) as [a|]; [|exact Hfb].
      destruct (Qleb 0.02 a && Qleb a 0.10); [|exact Hfb].
      match goal with
      | |- context [decided params (mark ?f _ ?l ?st) ?c ?cs ?k] =>
          destruct (decided_terminal params st f l c cs k eq_refl eq_refl eq_refl)
            as (r & Hr & Hl & _ & He & _)
      end.
      exists r. eexists. split; [exact Hr|]. split; [rewrite Hl; simpl; tauto|].
      rewrite He. reflexivity.
Qed.

(** Every built sample leaves the start state by the edge to built, and
    in the built branch the code "9" is that of the sparse shortcut alone. *)
Lemma built_is_built (params : ParameterSet) :
  is_built params = true ->
  exists r rest,
    classify_flow params = Ret r /\
    edges r = ("start", "built", "BSF≥10 or ISF≥10") :: rest /\
    (lcz r = "9" <->
     present_and (to_num (get params BSF)) (fun b => Qltb b 20)
     && present_and (to_num (get params SVF)) (fun v => Qltb 0.8 v) = true).
Proof.
  intros Hb. unfold classify_flow. cbv zeta.
  unfold is_built in Hb. rewrite Hb.
  unfold classify_built, classify_bsf40, classify_midrise, classify_bsf20to40,
    classify_lowrise.
  cbv zeta.
  destruct (present_and (to_num (get params BSF)) (fun b => Qltb b 20)
            && present_and (to_num (get params SVF)) (fun v => Qltb 0.8 v)).
  - match goal with
    | |- context [decided params (mark ?f _ ?l ?st) ?c ?cs ?k] =>
        destruct (decided_terminal params st f l c cs k eq_refl eq_refl eq_refl)
          as (r & Hr & Hl & _ & He & _)
    end.
    exists r. eexists. split; [exact Hr|]. split; [rewrite He; reflexivity|].
    rewrite Hl. split; reflexivity.
  - split_flow;
      match goal with
      | |- context [decided params (mark ?f _ ?l ?st) ?c ?cs ?k] =>
          destruct (decided_terminal params st f l c cs k eq_refl eq_refl eq_refl)
            as (r & Hr & Hl & _ & He & _);
          exists r; eexists; (split; [exact Hr|]);
          (split; [rewrite He; reflexivity|]);
          rewrite Hl; split; discriminate
      | |- context [fallback params ?st ?f ?l ?cs] =>
          destruct (fallback_terminal params st f l cs eq_refl)
            as (r & Hr & Hin & _ & He & _); [discriminate|reflexivity|];
          exists r; eexists; (split; [exact Hr|]);
          (split; [rewrite He; reflexivity|]);
          split; [|discriminate];
          intros H9; rewrite H9 in Hin; cbn [In] in Hin;
          repeat match type of Hin with
            | _ \/ _ => destruct Hin as [Hin|Hin]; [discriminate Hin|]
            end;
          destruct Hin
      end.
Qed.

(** C5, as amended.  The start state goes to built exactly when BSF is
    present and at least 10 or ISF is present and at least 10, and to land
    otherwise: every built sample leaves the start by the edge to built,
    every other sample by the edge to land.  The shortcut to "9" (BSF < 20
    and SVF > 0.8) is the first test of the built branch: a built sample is
    "9" exactly when it passes that test, and the shortcut is not reached
    from land, whose codes are A, B, C, D and G.  So {BSF:5, SVF:0.85, ISF:0}
    is classified in the land branch, by table scoring, as "C"; with ISF 10
    in place of 0 it is "9". *)
Theorem sparse_shortcut_only_when_built :
  (forall params,
      is_built params = true ->
      present_and (to_num (get params BSF)) (fun b => Qltb b 20) = true ->
      present_and (to_num (get params SVF)) (fun v => Qltb 0.8 v) = true ->
      exists r,
        classify_flow params = Ret r /\
        lcz r = "9" /\
        edges r = [("start", "built", "BSF≥10 or ISF≥10");
                   ("built", "lcz9", "BSF<20 & SVF>0.8")]) /\
  (forall params,
      is_built params = false ->
      exists r rest,
        classify_flow params = Ret r /\
        In (lcz r) land_candidates /\
        edges r = ("start", "land", "BSF<10 & ISF<10") :: rest) /\
  (forall params,
      is_built params = true ->
      exists r rest,
        classify_flow params = Ret r /\
        edges r = ("start", "built", "BSF≥10 or ISF≥10") :: rest /\
        (lcz r = "9" <->
         present_and (to_num (get params BSF)) (fun b => Qltb b 20)
         && present_and (to_num (get params SVF)) (fun v => Qltb 0.8 v) = true)) /\
  (is_built sparse_unbuilt = false /\
   exists r,
     classify_flow sparse_unbuilt = Ret r /\
     lcz r = "C" /\
     edges r = [("start", "land", "BSF<10 & ISF<10");
                ("land", "lczC", "table fallback")]) /\
  (is_built sparse_built = true /\
   exists r, classify_flow sparse_built = Ret r /\ lcz r = "9").
Proof.
  split; [exact built_sparse_is_9|].
  split; [exact unbuilt_is_land|].
  split; [exact built_is_built|].
  split; (split; [reflexivity|]); eexists; vm_compute; repeat split; reflexivity.
Qed.

Lemma sparse_shortcut_only_when_built_witness :
  (exists r, classify_flow sparse_built = Ret r /\ lcz r = "9") /\
  (exists r, classify_flow sparse_unbuilt = Ret r /\ In (lcz r) land_candidates) /\
  (exists r rest,
     classify_flow compact_highrise = Ret r /\
     edges r = ("start", "built", "BSF≥10 or ISF≥10") :: rest /\
     lcz r <> "9").
Proof.
  destruct sparse_shortcut_only_when_built as (Hsparse & Hland & Hbuilt & _).
  split; [|split].
  - destruct (Hsparse sparse_built eq_refl eq_refl eq_refl) as (r & Hr & Hl & _).
    exists r. split; assumption.
  - destruct (Hland sparse_unbuilt eq_refl) as (r & rest & Hr & Hl & _).
    exists r. split; assumption.
  - destruct (Hbuilt compact_highrise eq_refl) as (r & rest & Hr & He & H9).
    exists r, rest. split; [assumption|]. split; [assumption|].
    intros E. apply H9 in E. vm_compute in E. discriminate E.
Defined.

(** C5, the claim as stated fails: for {BSF:5, SVF:0.85, ISF:0} neither BSF
    nor ISF reaches 10, the start state goes to land, and the returned code
    is "C", not "9". *)
Lemma sparse_unbuilt_is_not_9 :
  exists r,
    classify_flow sparse_unbuilt = Ret r /\
    is_built sparse_unbuilt = false /\
    lcz r = "C" /\
    lcz r <> "9" /\
    map sc_code (alternatives r) = ["C"; "G"; "B"].
Proof.
  eexists. vm_compute. repeat split; try reflexivity. discriminate.
Qed.

(** ** The TH test of the scorer *)

Lemma prefix_single (a c : ascii) (s : string) :
  String.prefix (String a "") (String c s) = if ascii_dec a c then true else false.
Proof. simpl. destruct (ascii_dec a c); [destruct s|]; reflexivity. Qed.

Lemma contains_dash_lower (th : string) :
  PyStr.contains "-" th = true -> PyStr.contains "-" (PyStr.lower th) = true.
Proof.
  induction th as [|c th IH]; [discriminate|].
  cbn [PyStr.contains PyStr.lower]. rewrite !prefix_single.
  destruct (ascii_dec "-" c) as [<-|Hc].
  - reflexivity.
  - cbn [orb]. intros H. rewrite (IH H). apply orb_true_r.
Qed.

Lemma th_matches_dash (th : string) :
  PyStr.contains "-" th = true -> th_matches (Some th) "-" = true.
Proof.
  intros H. unfold th_matches. change (PyStr.lower "-") with "-".
  rewrite (contains_dash_lower th H).
  destruct th; [discriminate|reflexivity].
Qed.

Lemma get_without_TH (params : ParameterSet) (k : pname) :
  get (without_TH params) k = get params k.
Proof. destruct k; reflexivity. Qed.

Lemma score_items_shift (params : ParameterSet) (items : list (pname * string))
  (n : nat) :
  forall hits dist,
    score_items params items (hits + n) dist =
      (r <- score_items params items hits dist ;; Ret ((fst r + n)%nat, snd r)).
Proof.
  induction items as [|[k s] items IH]; intros hits dist; [reflexivity|].
  assert (Hnum : forall value,
             (inside <- value_in_spec value (Some s) ;;
              let hits' := match inside with Some true => S (hits + n) | _ => (hits + n)%nat end in
              d <- range_distance value (Some s) ;;
              score_items params items hits' (dist + d)) =
             (r <- (inside <- value_in_spec value (Some s) ;;
                    let hits' := match inside with Some true => S hits | _ => hits end in
                    d <- range_distance value (Some s) ;;
                    score_items params items hits' (dist + d)) ;;
              Ret ((fst r + n)%nat, snd r))).
  { intros value.
    destruct (value_in_spec value (Some s)) as [inside|e]; [|reflexivity].
    cbn [bind]. destruct (range_distance value (Some s)) as [d|e]; [|reflexivity].
    cbn [bind].
    destruct inside as [[|]|];
      [apply (IH (S hits) (dist + d)) | apply IH | apply IH]. }
  destruct k; cbn [score_items]; try apply Hnum.
  destruct (th_matches (pTH params) s); [apply (IH (S hits) dist) | apply IH].
Qed.

Lemma score_items_th (params : ParameterSet) (items : list (pname * string)) :
  forall hits dist,
    score_items params items hits dist =
      (r <- score_items (without_TH params) items hits dist ;;
       Ret ((fst r + th_hits (pTH params) items)%nat, snd r)).
Proof.
  induction items as [|[k s] items IH]; intros hits dist.
  - cbn. now rewrite Nat.add_0_r.
  - assert (Hnum : k <> TH ->
               score_items params ((k, s) :: items) hits dist =
               (r <- score_items (without_TH params) ((k, s) :: items) hits dist ;;
                Ret ((fst r + th_hits (pTH params) items)%nat, snd r))).
    { intros Hk.
      assert (E : forall q : ParameterSet,
                 score_items q ((k, s) :: items) hits dist =
                 (inside <- value_in_spec (to_num (get q k)) (Some s) ;;
                  let hits' := match inside with Some true => S hits | _ => hits end in
                  d <- range_distance (to_num (get q k)) (Some s) ;;
                  score_items q items hits' (dist + d))).
      { intros q. destruct k; try reflexivity. now elim Hk. }
      rewrite !E, get_without_TH.
      destruct (value_in_spec _ (Some s)) as [inside|e]; [|reflexivity].
      cbn [bind]. destruct (range_distance _ (Some s)) as [d|e]; [|reflexivity].
      cbn [bind]. apply IH. }
    destruct k; try (cbn [th_hits]; apply Hnum; discriminate).
    cbn [score_items th_hits]. change (pTH (without_TH params)) with (@None string).
    cbn [th_matches]. destruct (th_matches (pTH params) s).
    + rewrite IH. rewrite <- (Nat.add_1_r hits), score_items_shift.
      destruct (score_items (without_TH params) items hits dist) as [[h d]|e];
        [|reflexivity].
      cbn [bind fst snd]. do 2 f_equal. lia.
    + apply IH.
Qed.

Lemma table_row_th_hits (th : option string) (c s : string)
  (row : list (pname * string)) :
  table_lookup LCZ_TABLE c = Ret row ->
  th_spec row = Some s ->
  th_hits th row = if th_matches th s then 1%nat else 0%nat.
Proof.
  unfold LCZ_TABLE. cbn [table_lookup].
  repeat (destruct (String.eqb _ c);
          [intros [= <-]; cbn [spec_row th_spec th_hits]; intros [= <-];
           apply Nat.add_0_r|]).
  discriminate.
Qed.

(** C10.  [score_class] tests the TH entry of a row by looking for the raw
    spec text, lower-cased, inside the lower-cased TH text, without reading
    "-" as "not applicable".  Hence, when the TH text contains "-", every code
    of the table whose TH spec is "-" scores one hit more than it does
    without the TH text, at the same distance. *)
Theorem th_dash_spec_scores_a_hit :
  (forall params s items hits dist,
      score_items params ((TH, s) :: items) hits dist =
        score_items params items
          (if match pTH params with
              | None => false
              | Some th =>
                  PyStr.truthy th && PyStr.contains (PyStr.lower s) (PyStr.lower th)
              end
           then S hits else hits) dist) /\
  (forall params th code row,
      pTH params = Some th ->
      PyStr.contains "-" th = true ->
      table_lookup LCZ_TABLE code = Ret row ->
      th_spec row = Some "-" ->
      exists hits dist,
        score_class (without_TH params) code = Ret (hits, dist) /\
        score_class params code = Ret (S hits, dist)).
Proof.
  split; [reflexivity|].
  intros params th code row Hth Hdash Hrow Hspec.
  assert (Hk : known_code code = true).
  { revert Hrow. unfold known_code, table_keys.
    induction LCZ_TABLE as [|[c' r'] tbl IH]; [discriminate|].
    cbn [table_lookup map fst existsb]. rewrite (String.eqb_sym code c').
    destruct (String.eqb c' code); [reflexivity|exact IH]. }
  destruct (score_class_returns (without_TH params) code Hk) as [[hits dist] Hs].
  exists hits, dist. split; [exact Hs|].
  unfold score_class in *. rewrite Hrow in *. cbn [bind] in *.
  rewrite score_items_th, Hs. cbn [bind fst snd].
  rewrite (table_row_th_hits _ code "-" row Hrow Hspec), Hth, (th_matches_dash th Hdash).
  now rewrite Nat.add_1_r.
Qed.

Lemma th_dash_spec_scores_a_hit_witness :
  exists hits dist,
    score_class
      (without_TH (params_of None None None None None None None (Some "low-rise")))
      "1" = Ret (hits, dist) /\
    score_class (params_of None None None None None None None (Some "low-rise")) "1"
      = Ret (S hits, dist).
Proof.
  destruct th_dash_spec_scores_a_hit as [_ H].
  apply (H (params_of None None None None None None None (Some "low-rise"))
           "low-rise" "1"
           (spec_row "0.2-0.4" ">2" ">=3" "30-45" "40-60" "<10" ">=24" "-" "-"
              "0.1-0.2" "-" "8"));
    reflexivity.
Defined.

(** * Further properties *)

(** ** Shape of parsed bounds *)

(** Case analysis on the tests a hypothesis still contains, innermost first. *)
Ltac split_hyp H :=
  repeat match type of H with
    | context [py_float ?t] => destruct (py_float t); cbn [bind] in H
    | context [match ?x with _ => _ end] =>
        lazymatch x with
        | context [match _ with _ => _ end] => fail
        | _ => destruct x
        end
    end.

Lemma parsed_shape (spec : option string) (lo hi : option Q) (kind : kind) :
  parse_bounds spec = Ret (Some (lo, hi, kind)) ->
  match kind with
  | Kna => lo = None /\ hi = None
  | Kge | Kgt => (exists v, lo = Some v) /\ hi = None
  | Kle | Klt => lo = None /\ (exists v, hi = Some v)
  | Krange => exists l h, lo = Some l /\ hi = Some h
  | Keq => exists v, lo = Some v /\ hi = Some v
  end.
Proof.
  intros H. unfold parse_bounds, parse_eq in H.
  split_hyp H; try discriminate; inversion H; subst; eauto.
Qed.

(** X1.  The triple [parse_bounds] returns has the bounds its kind calls
    for: none for na, a lower bound only for ge and gt, an upper bound only
    for le and lt, both for range, and twice the same number for eq. *)
Theorem parse_bounds_shape (spec : option string) (lo hi : option Q) (kind : kind) :
  parse_bounds spec = Ret (Some (lo, hi, kind)) ->
  match kind with
  | Kna => lo = None /\ hi = None
  | Kge | Kgt => (exists v, lo = Some v) /\ hi = None
  | Kle | Klt => lo = None /\ (exists v, hi = Some v)
  | Krange => exists l h, lo = Some l /\ hi = Some h
  | Keq => exists v, lo = Some v /\ hi = Some v
  end.
Proof. apply parsed_shape. Qed.

Lemma parse_bounds_shape_witness :
  exists l h, Some (3 # 10) = Some l /\ Some (3 # 4) = Some h.
Proof.
  exact (parse_bounds_shape (Some "0.3-0.75") (Some (3 # 10)) (Some (3 # 4)) Krange
           eq_refl).
Defined.

(** ** Order tests and the sign of the distance *)

Lemma Qleb_true (x y : Q) : Qleb x y = true <-> x <= y.
Proof. apply Qle_bool_iff. Qed.

Lemma Qleb_false (x y : Q) : Qleb x y = false <-> y < x.
Proof.
  unfold Qleb. rewrite <- not_true_iff_false, Qle_bool_iff.
  split; [apply Qnot_le_lt|apply Qlt_not_le].
Qed.

Lemma Qltb_true (x y : Q) : Qltb x y = true <-> x < y.
Proof. unfold Qltb. rewrite negb_true_iff. apply Qleb_false. Qed.

Lemma Qltb_false (x y : Q) : Qltb x y = false <-> y <= x.
Proof. unfold Qltb. rewrite negb_false_iff. apply Qleb_true. Qed.

(** Case analysis on the comparisons of the goal, as order facts. *)
Ltac split_order :=
  repeat match goal with
    | |- context [Qleb ?a ?b] =>
        let E := fresh "E" in
        destruct (Qleb a b) eqn:E;
        [apply Qleb_true in E | apply Qleb_false in E]
    | |- context [Qltb ?a ?b] =>
        let E := fresh "E" in
        destruct (Qltb a b) eqn:E;
        [apply Qltb_true in E | apply Qltb_false in E]
    end.


Lemma Ret_inj (A : Type) (a b : A) : Ret a = Ret b -> a = b.
Proof. now intros [= ->]. Qed.


(** ** Scores *)







(** ** Candidates of best_matches *)

Lemma table_lookup_unknown (tbl : list (string * list (pname * string))) (c : string) :
  existsb (String.eqb c) (map fst tbl) = false -> table_lookup tbl c = Raise KeyError.
Proof.
  induction tbl as [|[c' row] tbl IH]; cbn [table_lookup map fst existsb];
    [reflexivity|].
  rewrite (String.eqb_sym c c'). destruct (String.eqb c' c); [discriminate|exact IH].
Qed.

Lemma score_all_unknown (params : ParameterSet) (cs : list string) :
  forallb known_code cs = false -> score_all params cs = Raise KeyError.
Proof.
  induction cs as [|c cs IH]; cbn [forallb score_all]; [discriminate|].
  destruct (known_code c) eqn:Hc; cbn [andb]; intros H.
  - destruct (score_class_returns params c Hc) as [r ->]. cbn [bind].
    now rewrite (IH H).
  - unfold score_class. rewrite (table_lookup_unknown LCZ_TABLE c Hc). reflexivity.
Qed.

(** X5.  [best_matches] returns exactly when every candidate is a code of
    the table; a candidate that is not makes it raise [KeyError], whatever
    the parameters and [topk]. *)
Theorem best_matches_unknown_candidate (params : ParameterSet) (cs : list string)
  (topk : nat) :
  (forallb known_code cs = true -> exists l, best_matches params (Some cs) topk = Ret l) /\
  (forallb known_code cs = false -> best_matches params (Some cs) topk = Raise KeyError).
Proof.
  split.
  - intros Hk.
    destruct (best_matches_returns params (Some cs) topk Hk) as (sc & _ & _ & Hb).
    eauto.
  - intros Hk. unfold best_matches. now rewrite (score_all_unknown params cs Hk).
Qed.

Lemma best_matches_unknown_candidate_witness :
  (exists l, best_matches no_params (Some ["A"; "G"]) 3 = Ret l) /\
  best_matches no_params (Some ["A"; "7"; "G"]) 3 = Raise KeyError.
Proof.
  split.
  - apply (proj1 (best_matches_unknown_candidate no_params ["A"; "G"] 3)). reflexivity.
  - apply (proj2 (best_matches_unknown_candidate no_params ["A"; "7"; "G"] 3)).
    reflexivity.
Defined.

(** The scored entry of a candidate. *)
Lemma score_all_entries (params : ParameterSet) (cs : list string) :
  forall sc,
    score_all params cs = Ret sc ->
    map sc_code sc = cs /\
    Forall (fun x => score_class params (sc_code x) = Ret (sc_hits x, sc_dist x)) sc.
Proof.
  induction cs as [|c cs IH]; cbn [score_all]; intros sc.
  - intros [= <-]. split; [reflexivity|constructor].
  - destruct (score_class params c) as [[h d]|e] eqn:Hc; [|discriminate].
    cbn [bind]. destruct (score_all params cs) as [tl|e]; [|discriminate].
    cbn [bind fst snd]. intros [= <-]. destruct (IH tl eq_refl) as [Hm Hf].
    split; [cbn; now rewrite Hm|]. constructor; [exact Hc|exact Hf].
Qed.

Lemma best_matches_members (params : ParameterSet)
  (candidates : option (list string)) (topk : nat) (l : list scored) :
  best_matches params candidates topk = Ret l ->
  let cs := match candidates with None => table_keys | Some cs => cs end in
  List.length l = Nat.min topk (List.length cs) /\
  forall x, In x l ->
    In (sc_code x) cs /\
    score_class params (sc_code x) = Ret (sc_hits x, sc_dist x).
Proof.
  unfold best_matches.
  set (cs := match candidates with None => table_keys | Some cs => cs end).
  destruct (score_all params cs) as [sc|e] eqn:Hsc; [|discriminate].
  cbn [bind]. intros [= <-]. cbv zeta.
  destruct (score_all_entries params cs sc Hsc) as [Hm Hf].
  pose proof (sort_by_key_perm sc) as Hp.
  split.
  - rewrite length_firstn, <- (Permutation_length Hp), <- Hm. now rewrite length_map.
  - intros x Hx.
    assert (Hin : In x sc).
    { apply Permutation_in with (sort_by_key sc); [now apply Permutation_sym|].
      rewrite <- (firstn_skipn topk (sort_by_key sc)). apply in_or_app. now left. }
    split.
    + rewrite <- Hm. now apply in_map.
    + rewrite Forall_forall in Hf. now apply Hf.
Qed.


(** X6.  The list [best_matches] returns has [min topk n] entries for [n]
    candidates; each entry carries a candidate code together with the hits
    and the distance [score_class] gives that code. *)
Theorem best_matches_entries (params : ParameterSet)
  (candidates : option (list string)) (topk : nat) (l : list scored) :
  best_matches params candidates topk = Ret l ->
  let cs := match candidates with None => table_keys | Some cs => cs end in
  List.length l = Nat.min topk (List.length cs) /\
  forall x, In x l ->
    In (sc_code x) cs /\
    score_class params (sc_code x) = Ret (sc_hits x, sc_dist x).
Proof. apply best_matches_members. Qed.

Lemma best_matches_entries_witness :
  let l := [("34", 2%nat, 0x13.00%xQ); ("35", 2%nat, 0x13.00%xQ)] in
  List.length l = Nat.min 2 (List.length ["34"; "35"]) /\
  forall x, In x l ->
    In (sc_code x) ["34"; "35"] /\
    score_class midrise_low_deviation (sc_code x) = Ret (sc_hits x, sc_dist x).
Proof.
  apply (best_matches_entries midrise_low_deviation (Some ["34"; "35"]) 2).
  vm_compute. reflexivity.
Defined.

(** ** The ranking does not depend on the order of the candidates *)








(** ** Inference from TH and TR *)

Lemma prefix_app (a b : string) :
  forall s, String.prefix (a ++ b) s = true -> String.prefix a s = true.
Proof.
  induction a as [|x a IH]; intros s.
  - intros _. now destruct s.
  - destruct s as [|y s]; [discriminate|].
    cbn [append String.prefix]. destruct (ascii_dec x y); [apply IH|discriminate].
Qed.

Lemma contains_app (a b s : string) :
  PyStr.contains (a ++ b) s = true -> PyStr.contains a s = true.
Proof.
  induction s as [|y s IH]; cbn [PyStr.contains].
  - rewrite !orb_false_r. apply prefix_app.
  - intros H. apply orb_true_iff in H as [H|H]; apply orb_true_iff.
    + left. now apply prefix_app with b.
    + right. now apply IH.
Qed.

Lemma contains_app_false (a b s : string) :
  PyStr.contains a s = false -> PyStr.contains (a ++ b) s = false.
Proof.
  intros H. destruct (PyStr.contains (a ++ b) s) eqn:E; [|reflexivity].
  apply contains_app in E. congruence.
Qed.

Lemma first_keyword_class (s : string) : first_keyword TH_TO_LCZ s = th_class s.
Proof.
  unfold TH_TO_LCZ, th_class. cbn [first_keyword].
  destruct (PyStr.contains "dense" s) eqn:Hd.
  { now destruct (PyStr.contains "dense tree" s). }
  rewrite (contains_app_false "dense" " tree" s Hd : PyStr.contains "dense tree" s = false).
  destruct (PyStr.contains "scattered" s) eqn:Hsc.
  { cbn [orb]. now destruct (PyStr.contains "scattered tree" s), (PyStr.contains "sparse tree" s). }
  rewrite (contains_app_false "scattered" " tree" s Hsc
           : PyStr.contains "scattered tree" s = false).
  destruct (PyStr.contains "sparse" s) eqn:Hsp.
  { cbn [orb]. now destruct (PyStr.contains "sparse tree" s). }
  rewrite (contains_app_false "sparse" " tree" s Hsp
           : PyStr.contains "sparse tree" s = false).
  cbn [orb].
  destruct (PyStr.contains "bush" s); [reflexivity|].
  destruct (PyStr.contains "scrub" s); [reflexivity|]. cbn [orb].
  destruct (PyStr.contains "low plant" s); [reflexivity|].
  destruct (PyStr.contains "grass" s); [reflexivity|].
  destruct (PyStr.contains "ground cover" s); [reflexivity|]. cbn [orb].
  destruct (PyStr.contains "water" s); [reflexivity|].
  destruct (PyStr.contains "lake" s); [reflexivity|].
  destruct (PyStr.contains "river" s); reflexivity.
Qed.

(** X8.  The code [infer_lcz_from_TH] reads off a TH text depends on the
    lower-cased text only, through five keyword groups tried in the order A,
    B, C, D, G: a text containing "dense" is A whatever else it contains, so
    that the table's own TH text of class C, "Dense bush", is read as A. *)
Theorem infer_lcz_from_TH_by_class :
  (forall th,
      fst (infer_lcz_from_TH th) =
        match th with
        | None => None
        | Some t => th_class (PyStr.lower t)
        end) /\
  (table_lookup LCZ_TABLE "C" = Ret (spec_row "0.7-0.9" "0.25-1.0" "-" "<10" "<10"
                                      ">90" "<2" "-" "-" "0.15-0.3" "Dense bush" "4-5") /\
   fst (infer_lcz_from_TH (Some "Dense bush")) = Some "A").
Proof.
  split; [|split; reflexivity].
  intros [t|]; [|reflexivity].
  unfold infer_lcz_from_TH. destruct t as [|c t]; [reflexivity|].
  cbn [PyStr.truthy negb]. rewrite first_keyword_class.
  now destruct (th_class (PyStr.lower (String c t))).
Qed.

Lemma band_gap_below (tr lo hi : Q) (c label : string) :
  tr <= lo -> lo <= hi -> band_gap tr (c, (lo, hi), label) == lo - tr.
Proof.
  intros H1 H2. unfold band_gap, py_min.
  apply (Qabs_case (tr - lo)); intros Ha;
    apply (Qabs_case (tr - hi)); intros Hb; split_order; lra.
Qed.

Lemma band_gap_above (tr lo hi : Q) (c label : string) :
  hi <= tr -> lo <= hi -> band_gap tr (c, (lo, hi), label) == tr - hi.
Proof.
  intros H1 H2. unfold band_gap, py_min.
  apply (Qabs_case (tr - lo)); intros Ha;
    apply (Qabs_case (tr - hi)); intros Hb; split_order; lra.
Qed.

(** The gap of a band that does not contain [tr], as a linear expression. *)
Ltac know_gap tr c lo hi label :=
  first
    [ assert (band_gap tr (c, (lo, hi), label) == lo - tr)
        by (apply band_gap_below; lra)
    | assert (band_gap tr (c, (lo, hi), label) == tr - hi)
        by (apply band_gap_above; lra) ].

(** Settles the comparisons of the goal that the order facts at hand decide. *)
Ltac decide_order :=
  repeat match goal with
    | |- context [Qleb ?a ?b] =>
        first [ replace (Qleb a b) with true by (symmetry; apply Qleb_true; lra)
              | replace (Qleb a b) with false by (symmetry; apply Qleb_false; lra) ]
    | |- context [Qltb ?a ?b] =>
        first [ replace (Qltb a b) with true by (symmetry; apply Qltb_true; lra)
              | replace (Qltb a b) with false by (symmetry; apply Qltb_false; lra) ]
    | _ => progress cbn [andb]
    end.

Ltac settle_band tr :=
  unfold infer_lcz_from_TR, TR_BANDS, tr_class; cbn [first_band];
  decide_order; cbn [fst];
  try reflexivity;
  know_gap tr "A" 7.5 8.5 "TR ≈ 8 → (dense trees)";
  know_gap tr "B" 4.5 6.5 "TR ≈ 5–6 → (scattered/sparse trees)";
  know_gap tr "C" 3.5 5.0 "TR ≈ 4–5 → (bush/scrub)";
  know_gap tr "D" 2.5 4.0 "TR ≈ 3–4 → (low plants/grass)";
  know_gap tr "G" 0.5 1.5 "TR ≈ 1 → (water)";
  unfold nearest_band; cbn [fold_left hd tl];
  decide_order; reflexivity.

Lemma infer_lcz_from_TR_code (tr : Q) :
  fst (infer_lcz_from_TR (Some tr)) = Some (tr_class tr).
Proof.
  destruct (Qlt_le_dec tr 0.5); [settle_band tr|].
  destruct (Qlt_le_dec 1.5 tr); [|settle_band tr].
  destruct (Qlt_le_dec tr 2); [settle_band tr|].
  destruct (Qlt_le_dec tr 2.5); [settle_band tr|].
  destruct (Qlt_le_dec tr 3.5); [settle_band tr|].
  destruct (Qlt_le_dec tr 4.5); [settle_band tr|].
  destruct (Qlt_le_dec 6.5 tr); [|settle_band tr].
  destruct (Qlt_le_dec tr 7); [settle_band tr|].
  destruct (Qlt_le_dec tr 7.5); [settle_band tr|].
  destruct (Qlt_le_dec 8.5 tr); settle_band tr.
Qed.

(** X9.  For a present TR that is not below 0 (the form offers 0 to 8),
    [infer_lcz_from_TR] gives a code, and the code is a step function of TR:
    "G" below 2, "D" from 2 to below 3.5, "C" from 3.5 to below 4.5, "B" from
    4.5 to below 7, "A" from 7 on.  Where two bands overlap the earlier one
    wins, outside all bands the nearest one does, and at the two midpoints 2
    and 7 the band listed first.  An absent TR gives no code.  (Below 0 the
    same holds in exact arithmetic, by [infer_lcz_from_TR_code]; in binary64
    the gaps of a TR below about -2^53 all round to one float, and the band
    listed first, A, is returned.) *)
Theorem infer_lcz_from_TR_by_threshold :
  fst (infer_lcz_from_TR None) = None /\
  forall tr : Q,
    0 <= tr -> fst (infer_lcz_from_TR (Some tr)) = Some (tr_class tr).
Proof.
  split; [reflexivity|]. intros tr _. apply infer_lcz_from_TR_code.
Qed.

Lemma infer_lcz_from_TR_by_threshold_witness :
  0 <= 2 /\ fst (infer_lcz_from_TR (Some 2)) = Some "D".
Proof.
  split; [discriminate|].
  exact (proj2 infer_lcz_from_TR_by_threshold 2 ltac:(discriminate)).
Defined.

(** The same thresholds in binary64: at each bound of a band, each threshold
    and the two floats next to it on either side, and at large and tiny
    values, the code of the binary64 function is the one of the steps. *)
Example infer_lcz_from_TR_binary64_thresholds :
  forallb
    (fun x =>
       match Binary64.infer_lcz_from_TR (Some x) with
       | Ret (Some code, _) => String.eqb code (Binary64.tr_class x)
       | _ => false
       end)
    Binary64.threshold_samples = true.
Proof. vm_compute. reflexivity. Qed.

(** ** The shape of the results *)

Arguments decided : simpl never.
Arguments fallback : simpl never.

Lemma decided_shape (params : ParameterSet) (st : flow) (code : string)
  (candidates : option (list string)) (topk : nat) (r : ClassificationResult) :
  decided params st code candidates topk = Ret r ->
  exists alts, r = finish st code alts.
Proof.
  unfold decided. destruct (best_matches params candidates topk) as [alts|e];
    [|discriminate].
  cbn [bind]. intros [= <-]. now exists alts.
Qed.


Lemma fallback_shape (params : ParameterSet) (st : flow) (frm label : string)
  (cs : list string) (r : ClassificationResult) :
  fallback params st frm label cs = Ret r ->
  exists w rest,
    In (sc_code w) cs /\
    r = finish (mark frm ("lcz" ++ sc_code w) label st) (sc_code w) (w :: rest).
Proof.
  unfold fallback.
  destruct (best_matches params (Some cs) 3) as [[|w rest]|e] eqn:Hb;
    cbn [bind top_code]; try discriminate.
  intros [= <-]. exists w, rest. split; [|reflexivity].
  apply (best_matches_members params (Some cs) 3 (w :: rest) Hb). now left.
Qed.

(** Reads a result off a terminal of the flow. *)
Ltac read_terminal H :=
  first
    [ apply decided_shape in H; destruct H as [? ->]
    | apply fallback_shape in H;
      let w := fresh "w" in
      let Hin := fresh "Hin" in
      destruct H as (w & ? & Hin & ->);
      let c := fresh "c" in
      set (c := sc_code w) in *; clearbody c;
      cbn [In land_candidates] in Hin;
      repeat match type of Hin with
        | _ \/ _ => destruct Hin as [<-|Hin]
        | False => destruct Hin
        end ].

Lemma is_decision_graph_In (g : string * list edge) :
  is_decision_graph g = true -> In g decision_graphs.
Proof.
  unfold is_decision_graph. now destruct (in_dec graph_dec g decision_graphs).
Qed.

Lemma built_flow_graph (params : ParameterSet) (bsf svf bh bhd bhv scr far : option Q)
  (r : ClassificationResult) :
  classify_built params (mkFlow [] ["start"] []) bsf svf bh bhd bhv scr far = Ret r ->
  In (lcz r, edges r) decision_graphs /\
  nodes r = "start" :: map target (edges r).
Proof.
  intros H.
  unfold classify_built, classify_bsf40, classify_midrise, classify_bsf20to40,
    classify_lowrise in H.
  cbv zeta in H. split_hyp H; read_terminal H;
    (split; [apply is_decision_graph_In; vm_compute; reflexivity|reflexivity]).
Qed.

Lemma apply_water_code (c : string) (reason : line) (al tr : option Q) :
  In c land_candidates -> In (fst (apply_water c reason al tr)) land_candidates.
Proof.
  intros Hc. rewrite apply_water_spec. cbn [fst].
  destruct (water_cond al tr); [simpl; tauto|exact Hc].
Qed.

Lemma land_flow_graph (params : ParameterSet) (r : ClassificationResult) :
  classify_land params (mkFlow [] ["start"] []) = Ret r ->
  In (lcz r, edges r) decision_graphs /\
  nodes r = "start" :: map target (edges r).
Proof.
  intros H. unfold classify_land in H. cbv zeta in H.
  destruct (infer_lcz_from_TH (pTH params)) as [[c|] rsn] eqn:Hth.
  - pose proof (apply_water_code c rsn (to_num (get params AL)) (to_num (get params TR))
                  (infer_lcz_from_TH_codes _ _ _ Hth)) as Hin.
    destruct (apply_water c rsn _ _) as [c' rsn']. cbn [fst] in Hin.
    apply decided_shape in H. destruct H as [alts ->].
    cbn [In land_candidates] in Hin.
    repeat match type of Hin with
      | _ \/ _ => destruct Hin as [<-|Hin]
      | False => destruct Hin
      end;
      (split; [apply is_decision_graph_In; vm_compute; reflexivity|reflexivity]).
  - destruct (infer_lcz_from_TR (to_num (get params TR))) as [[c|] rsn'] eqn:Htr.
    + pose proof (apply_water_code c rsn' (to_num (get params AL))
                    (to_num (get params TR))
                    (infer_lcz_from_TR_codes _ _ _ Htr)) as Hin.
      destruct (apply_water c rsn' _ _) as [c' rsn'']. cbn [fst] in Hin.
      apply decided_shape in H. destruct H as [alts ->].
      cbn [In land_candidates] in Hin.
      repeat match type of Hin with
        | _ \/ _ => destruct Hin as [<-|Hin]
        | False => destruct Hin
        end;
        (split; [apply is_decision_graph_In; vm_compute; reflexivity|reflexivity]).
    + split_hyp H; read_terminal H;
        (split; [apply is_decision_graph_In; vm_compute; reflexivity|reflexivity]).
Qed.

Lemma flow_graph (params : ParameterSet) :
  exists r,
    classify_flow params = Ret r /\
    In (lcz r, edges r) decision_graphs /\
    nodes r = "start" :: map target (edges r).
Proof.
  destruct (classify_flow_terminal params) as (r & Hr & _).
  exists r. split; [exact Hr|].
  unfold classify_flow in Hr. cbv zeta in Hr.
  destruct (_ || _) in Hr.
  - now apply built_flow_graph in Hr.
  - now apply land_flow_graph in Hr.
Qed.

Lemma decision_graphs_are_paths :
  forallb
    (fun g : string * list edge =>
       match path_ends "start" (snd g) with
       | Some n => String.eqb n ("lcz" ++ fst g)
       | None => false
       end
       && (2 <=? List.length (snd g))%nat && (List.length (snd g) <=? 4)%nat)
    decision_graphs = true.
Proof. vm_compute. reflexivity. Qed.

(** X10.  The decision graph of every result is one of the 46 root-to-leaf
    paths of the decision tree: its edges form a chain from "start" to the
    node of the returned code, two to four edges long, and its nodes are
    "start" and the nodes the edges lead to. *)
Theorem decision_graph_is_a_path (params : ParameterSet) :
  exists r,
    classify_flow params = Ret r /\
    In (lcz r, edges r) decision_graphs /\
    path_ends "start" (edges r) = Some ("lcz" ++ lcz r) /\
    (2 <= List.length (edges r) <= 4)%nat /\
    Permutation (nodes r) ("start" :: map target (edges r)).
Proof.
  destruct (flow_graph params) as (r & Hr & Hg & Hn).
  exists r. split; [exact Hr|]. split; [exact Hg|].
  pose proof decision_graphs_are_paths as Hp.
  rewrite forallb_forall in Hp. specialize (Hp _ Hg). cbn [fst snd] in Hp.
  apply andb_prop in Hp as [Hp H4]. apply andb_prop in Hp as [Hp H2].
  apply Nat.leb_le in H2, H4.
  destruct (path_ends "start" (edges r)) as [n|]; [|discriminate].
  apply String.eqb_eq in Hp. subst n.
  repeat split; try assumption. now rewrite Hn.
Qed.

(** ** The families of codes *)

Lemma built_flow_family (params : ParameterSet) (st : flow) :
  exists r,
    classify_built params st (to_num (get params BSF)) (to_num (get params SVF))
      (to_num (get params BH)) (to_num (get params BHD)) (to_num (get params BHV))
      (to_num (get params SCR)) (to_num (get params FAR)) = Ret r /\
    In (lcz r)
       (if present_and (to_num (get params BSF)) (fun b => Qltb b 20)
           && present_and (to_num (get params SVF)) (fun v => Qltb 0.8 v)
        then ["9"]
        else if present_and (to_num (get params BSF)) (fun b => Qleb 40 b)
        then ["1"; "2"; "3"; "34"; "35"]
        else ["4"; "5"; "6"; "8"; "8B"]).
Proof.
  destruct (classify_built_terminal params st (to_num (get params BSF))
              (to_num (get params SVF)) (to_num (get params BH))
              (to_num (get params BHD)) (to_num (get params BHV))
              (to_num (get params SCR)) (to_num (get params FAR))) as (r & Hr & _).
  exists r. split; [exact Hr|].
  unfold classify_built, classify_bsf40, classify_midrise, classify_bsf20to40,
    classify_lowrise in Hr.
  cbv zeta in Hr.
  destruct (present_and (to_num (get params BSF)) (fun b => Qltb b 20)
            && present_and (to_num (get params SVF)) (fun v => Qltb 0.8 v)).
  - read_terminal Hr. simpl. tauto.
  - destruct (present_and (to_num (get params BSF)) (fun b => Qleb 40 b));
      split_hyp Hr; read_terminal Hr; simpl; tauto.
Qed.

Lemma flow_family (params : ParameterSet) :
  exists r, classify_flow params = Ret r /\ In (lcz r) (code_family params).
Proof.
  unfold code_family. destruct (is_built params) eqn:Hb.
  - destruct (built_flow_family params (mkFlow [] ["start"] [])) as (r & Hr & Hin).
    exists r. split; [|exact Hin].
    unfold classify_flow. cbv zeta. unfold is_built in Hb. now rewrite Hb.
  - destruct (unbuilt_is_land params Hb) as (r & rest & Hr & Hin & _).
    now exists r.
Qed.

(** X11.  The returned code belongs to the family the first tests select:
    "9" when the branch is built with BSF < 20 and SVF > 0.8; otherwise one of
    1, 2, 3, 34, 35 when BSF >= 40; otherwise one of 4, 5, 6, 8, 8B in the
    built branch; and one of A, B, C, D, G in the land branch.  This holds on
    the scoring fallbacks as on the rules. *)
Theorem code_in_family (params : ParameterSet) :
  exists r, classify_flow params = Ret r /\ In (lcz r) (code_family params).
Proof. apply flow_family. Qed.

(** X12.  [_lcz_group] of the returned code tells the branch taken:
    "Built-up" exactly when BSF or ISF is present and at least 10. *)
Theorem group_of_result_is_branch (params : ParameterSet) :
  exists r,
    classify_flow params = Ret r /\
    _lcz_group (lcz r) = if is_built params then "Built-up" else "Land cover".
Proof.
  destruct (flow_family params) as (r & Hr & Hin).
  exists r. split; [exact Hr|].
  unfold code_family in Hin.
  destruct (is_built params);
    repeat match type of Hin with
      | context [if ?b then _ else _] => destruct b
      end;
    cbn [In land_candidates] in Hin;
    repeat match type of Hin with
      | _ \/ _ => destruct Hin as [<-|Hin]
      | False => destruct Hin
      end; reflexivity.
Qed.

Lemma family_is_known (params : ParameterSet) (c : string) :
  In c (code_family params) -> In c table_keys.
Proof.
  unfold code_family.
  repeat match goal with
    | |- context [if ?b then _ else _] => destruct b
    end; simpl; tauto.
Qed.

(** X13.  Whenever [classify_flow] returns, [classify_lcz] returns the same
    result with the metadata of its code: the code has its entry in
    [LCZ_DEFINITIONS] and in [LCZ_IMAGES], so the placeholders "Unknown", ""
    and [None] are not returned, and the image is the file lcz<code>.png of
    the directory images under [CUR_DIR], the letter of a land-cover code in
    lower case. *)
Theorem classify_lcz_has_metadata (CUR_DIR : string) (params : ParameterSet)
  (r : ClassificationResult) :
  classify_flow params = Ret r ->
  exists res,
    classify_lcz CUR_DIR params = Ret res /\
    flow_result res = r /\
    dict_get LCZ_DEFINITIONS (lcz r) = Some (lcz_type res, definition res) /\
    lcz_type res <> "Unknown" /\
    definition res <> "" /\
    image res =
      Some (path_join (path_join CUR_DIR "images")
              ("lcz"
               ++ (if String.eqb (_lcz_group (lcz r)) "Built-up" then lcz r
                   else PyStr.lower (lcz r))
               ++ ".png")).
Proof.
  intros Hr.
  destruct (flow_family params) as (r' & Hr' & Hin).
  rewrite Hr in Hr'. apply Ret_inj in Hr'. subst r'.
  apply family_is_known in Hin. unfold classify_lcz. rewrite Hr. cbn [bind].
  cbn [In table_keys map fst LCZ_TABLE] in Hin.
  repeat match type of Hin with
    | _ \/ _ => destruct Hin as [E|Hin]
    | False => destruct Hin
    end;
    eexists; (split; [reflexivity|]);
    cbn [flow_result lcz_type definition image];
    (split; [reflexivity|]); rewrite <- E;
    (split; [reflexivity|]);
    (split; [vm_compute; discriminate|]);
    (split; [vm_compute; discriminate|]);
    unfold LCZ_IMAGES;
    cbn [map dict_get String.eqb Ascii.eqb Bool.eqb fst snd];
    reflexivity.
Qed.

Lemma classify_lcz_has_metadata_witness :
  exists res,
    classify_lcz "/app" plain_water = Ret res /\
    lcz_type res <> "Unknown" /\
    image res = Some "/app/images/lczg.png".
Proof.
  assert (Hr : classify_flow plain_water = Ret (returned (classify_flow plain_water)))
    by (vm_compute; reflexivity).
  destruct (classify_lcz_has_metadata "/app" plain_water _ Hr)
    as (res & Hres & _ & _ & Htype & _ & Himg).
  exists res. split; [exact Hres|]. split; [exact Htype|].
  rewrite Himg. vm_compute. reflexivity.
Defined.

(** ** The DOT text of a result *)




(** ** Suggested values *)

(** X15.  For every numeric spec of [LCZ_TABLE] other than "-", the value
    [suggest_value_from_spec] proposes lies inside that spec: the midpoint of
    a range, the bound moved by [_epsilon_for] for an inequality, the value
    itself for an exact spec. *)
Theorem suggested_value_is_inside (lcz_code : string)
  (row : list (pname * string)) (k : pname) (s : string) :
  In (lcz_code, row) LCZ_TABLE ->
  In (k, s) row ->
  k <> TH ->
  s <> "-" ->
  exists v,
    suggest_value_from_spec k (Some s) = Done (Some v) /\
    value_in_spec (Some v) (Some s) = Ret (Some true).
Proof.
  intros Hrow Hks Hk Hs.
  assert (Hall :
    forallb
      (fun cr : string * list (pname * string) =>
         forallb
           (fun ks : pname * string =>
              pname_eqb (fst ks) TH || String.eqb (snd ks) "-"
              || match suggest_value_from_spec (fst ks) (Some (snd ks)) with
                 | Done (Some v) =>
                     match value_in_spec (Some v) (Some (snd ks)) with
                     | Ret (Some true) => true
                     | _ => false
                     end
                 | _ => false
                 end)
           (snd cr))
      LCZ_TABLE = true) by (vm_compute; reflexivity).
  rewrite forallb_forall in Hall. specialize (Hall _ Hrow). cbn [snd] in Hall.
  rewrite forallb_forall in Hall. specialize (Hall _ Hks). cbn [fst snd] in Hall.
  destruct (pname_eqb k TH) eqn:Hth; [destruct k; try discriminate; now elim Hk|].
  destruct (String.eqb s "-") eqn:Hd; [apply String.eqb_eq in Hd; now elim Hs|].
  cbn [orb] in Hall.
  destruct (suggest_value_from_spec k (Some s)) as [[v|]| |]; try discriminate.
  exists v. split; [reflexivity|].
  destruct (value_in_spec (Some v) (Some s)) as [[[|]|]|]; try discriminate.
  reflexivity.
Qed.

Lemma suggested_value_is_inside_witness :
  exists v,
    suggest_value_from_spec SVF (Some "<0.4") = Done (Some v) /\
    value_in_spec (Some v) (Some "<0.4") = Ret (Some true).
Proof.
  apply (suggested_value_is_inside "A"
           (spec_row "<0.4" ">1" "-" "<10" "<10" ">90" "3-30" "-" "-" "0.1-0.2"
              "Dense trees" "8")).
  - do 11 right. left. reflexivity.
  - left. reflexivity.
  - discriminate.
  - discriminate.
Defined.

(** ** Presets *)

(** Runs the flow on parameters whose consulted fields are known: the tests
    are computed, the terminal is left as it stands. *)
Ltac run_flow H :=
  unfold classify_flow, classify_built, classify_bsf40, classify_midrise,
    classify_bsf20to40, classify_lowrise, classify_land in H;
  let D := fresh "D" in
  let HD := fresh "HD" in
  let F := fresh "F" in
  let HF := fresh "HF" in
  remember decided as D eqn:HD;
  remember fallback as F eqn:HF;
  vm_compute in H;
  subst D F.

Lemma preset_classifies (c : string) (st st' : ParameterSet) :
  In c ["1"; "2"; "3"; "34"; "4"; "35"; "5"; "6"; "8"; "8B"; "9"; "A"; "B"; "C"; "D"] ->
  apply_preset_to_session c st = Done st' ->
  exists r, classify_flow st' = Ret r /\ lcz r = c.
Proof.
  intros Hin Hst.
  destruct (classify_flow_terminal st') as (r & Hr & _).
  exists r. split; [exact Hr|].
  cbn [In] in Hin.
  repeat match type of Hin with
    | _ \/ _ => destruct Hin as [<-|Hin]
    | False => destruct Hin
    end;
    vm_compute in Hst; injection Hst as <-;
    run_flow Hr; apply decided_shape in Hr; destruct Hr as [alts ->]; reflexivity.
Qed.

Lemma preset_applies (c : string) (st : ParameterSet) :
  In c table_keys -> exists st', apply_preset_to_session c st = Done st'.
Proof.
  intros Hin. cbn [In table_keys map fst LCZ_TABLE] in Hin.
  repeat match type of Hin with
    | _ \/ _ => destruct Hin as [<-|Hin]
    | False => destruct Hin
    end;
    eexists; vm_compute; reflexivity.
Qed.

Lemma water_preset_classifies (st st' : ParameterSet) :
  apply_preset_to_session "G" st = Done st' ->
  exists r, classify_flow st' = Ret r /\ lcz r = "G".
Proof.
  intros Hst.
  destruct (classify_flow_terminal st') as (r & Hr & _).
  exists r. split; [exact Hr|].
  vm_compute in Hst. injection Hst as <-.
  unfold classify_flow in Hr. cbv zeta in Hr.
  match type of Hr with
  | (if ?b then _ else _) = _ =>
      replace b with false in Hr by (symmetry; vm_compute; reflexivity)
  end.
  unfold classify_land in Hr. cbv zeta in Hr.
  destruct (infer_lcz_from_TH _) as [[c|] rsn] in Hr.
  - rewrite apply_water_spec in Hr.
    match type of Hr with
    | context [water_cond ?a ?b] =>
        replace (water_cond a b) with true in Hr by (symmetry; vm_compute; reflexivity)
    end.
    cbv beta iota zeta in Hr.
    apply decided_shape in Hr. destruct Hr as [alts ->]. reflexivity.
  - match type of Hr with
    | context [infer_lcz_from_TR ?t] =>
        let v := eval vm_compute in (infer_lcz_from_TR t) in
        change (infer_lcz_from_TR t) with v in Hr
    end.
    cbv beta iota in Hr. rewrite apply_water_spec in Hr.
    destruct (water_cond _ _) in Hr; cbv beta iota zeta in Hr;
      apply decided_shape in Hr; destruct Hr as [alts ->]; reflexivity.
Qed.

(** X16.  Presets and classifier round-trip: whatever the session state
    before, applying the preset of any of the sixteen codes of the table
    succeeds, and the parameters it leaves are classified as that code. *)
Theorem preset_round_trip (c : string) (st : ParameterSet) :
  In c table_keys ->
  exists st' r,
    apply_preset_to_session c st = Done st' /\
    classify_flow st' = Ret r /\
    lcz r = c.
Proof.
  intros Hin. destruct (preset_applies c st Hin) as [st' Hst].
  exists st'.
  assert (Hc : "G" = c \/
               In c ["1"; "2"; "3"; "34"; "4"; "35"; "5"; "6"; "8"; "8B"; "9";
                     "A"; "B"; "C"; "D"]).
  { cbn [In table_keys map fst LCZ_TABLE] in Hin. cbn [In]. tauto. }
  destruct Hc as [<-|Hc].
  - destruct (water_preset_classifies st st' Hst) as (r & Hr & Hl). now exists r.
  - destruct (preset_classifies c st st' Hc Hst) as (r & Hr & Hl). now exists r.
Qed.

Lemma preset_round_trip_witness :
  exists st' r,
    apply_preset_to_session "8B" (init_defaults no_params) = Done st' /\
    classify_flow st' = Ret r /\
    lcz r = "8B".
Proof.
  apply (preset_round_trip "8B" (init_defaults no_params)).
  cbn. tauto.
Defined.

Lemma overrides_only_for_table_codes (c : string) :
  known_code c = false -> overrides_lookup PRESET_OVERRIDES c = None.
Proof.
  intros Hc. unfold PRESET_OVERRIDES. cbn [overrides_lookup].
  repeat match goal with
    | |- context [String.eqb ?k c] =>
        destruct (String.eqb_spec k c) as [E|_];
        [rewrite <- E in Hc; vm_compute in Hc; discriminate|]
    end.
  reflexivity.
Qed.

(** X17.  The two preset functions, [fill_preset_from_lcz] and
    [apply_preset_to_session], compute the same session state; and for a
    code that is not in the table they change nothing. *)
Theorem preset_functions_agree :
  (forall c st, fill_preset_from_lcz c st = apply_preset_to_session c st) /\
  (forall c st, known_code c = false -> apply_preset_to_session c st = Done st).
Proof.
  split.
  - intros c st. unfold fill_preset_from_lcz, apply_preset_to_session. cbv zeta.
    destruct (suggest_all (table_get c) numeric_params st); cbn [and_then];
      try reflexivity.
    now destruct (overrides_lookup PRESET_OVERRIDES c).
  - intros c st Hc. unfold apply_preset_to_session, table_get.
    unfold known_code, table_keys in Hc.
    rewrite (table_lookup_unknown LCZ_TABLE c Hc).
    fold table_keys in Hc. fold (known_code c) in Hc.
    rewrite (overrides_only_for_table_codes c Hc). reflexivity.
Qed.

Lemma preset_functions_agree_witness :
  apply_preset_to_session "7" (init_defaults no_params) = Done (init_defaults no_params).
Proof.
  apply (proj2 preset_functions_agree "7" (init_defaults no_params)). reflexivity.
Defined.

(** ** Defaults *)

Lemma init_defaults_fields (st : ParameterSet) :
  init_defaults st =
    mkParams
      (match pSVF st with Some v => Some v | None => Some 0.85 end)
      (match pSCR st with Some v => Some v | None => Some 0.20 end)
      (match pFAR st with Some v => Some v | None => Some 0.90 end)
      (match pBSF st with Some v => Some v | None => Some 25.0 end)
      (match pISF st with Some v => Some v | None => Some 45.0 end)
      (match pPSF st with Some v => Some v | None => Some 15.0 end)
      (match pBH st with Some v => Some v | None => Some 8.0 end)
      (match pBHD st with Some v => Some v | None => Some 8.0 end)
      (match pBHV st with Some v => Some v | None => Some 120.0 end)
      (match pAL st with Some v => Some v | None => Some 0.20 end)
      (match pTR st with Some v => Some v | None => Some 5.0 end)
      (match pTH st with Some s => Some s | None => Some "" end).
Proof.
  destruct st as [[a|] [b|] [c|] [d|] [e|] [f|] [g|] [h|] [i|] [j|] [k|] [l|]];
    reflexivity.
Qed.

(** X18.  [init_defaults] leaves no parameter key unset, never overwrites a
    key that is set, writes the value of [DEFAULTS] under a numeric key that
    is not, and changes nothing when run again. *)
Theorem init_defaults_fills_only_missing (st : ParameterSet) :
  (forall k, has_key (init_defaults st) k = true) /\
  (forall k v, get st k = Some v -> get (init_defaults st) k = Some v) /\
  (forall s, pTH st = Some s -> pTH (init_defaults st) = Some s) /\
  (forall k v, In (k, Num v) DEFAULTS -> get st k = None ->
     get (init_defaults st) k = Some v) /\
  init_defaults (init_defaults st) = init_defaults st.
Proof.
  split; [|split; [|split; [|split]]].
  - intros k. rewrite init_defaults_fields.
    destruct st as [a b c d e f g h i j k' l].
    destruct k; cbn;
      match goal with |- context [match ?x with _ => _ end] => now destruct x end.
  - intros k v H. rewrite init_defaults_fields.
    destruct k; cbn in *; try discriminate; now rewrite H.
  - intros s H. rewrite init_defaults_fields. cbn. now rewrite H.
  - intros k v Hin H. rewrite init_defaults_fields.
    unfold DEFAULTS in Hin. cbn [In] in Hin.
    repeat match type of Hin with
      | _ \/ _ => destruct Hin as [E|Hin]
      | False => destruct Hin
      end;
      try discriminate; injection E as <- <-; cbn in *; now rewrite H.
  - rewrite (init_defaults_fields (init_defaults st)), init_defaults_fields.
    cbn. f_equal;
      match goal with |- context [match ?x with _ => _ end] => now destruct x end.
Qed.

Lemma init_defaults_fills_only_missing_witness :
  get (init_defaults no_params) BSF = Some 25.0 /\
  get (init_defaults (params_of (Some 41) None None None None None None None)) BSF
    = Some 41.
Proof.
  destruct (init_defaults_fills_only_missing no_params) as (_ & _ & _ & Hd & _).
  destruct (init_defaults_fills_only_missing
              (params_of (Some 41) None None None None None None None))
    as (_ & Hk & _).
  split.
  - apply (Hd BSF 25.0); [cbn; tauto|reflexivity].
  - apply (Hk BSF 41). reflexivity.
Defined.
